(** * AVOXI billing analysis: a shallow embedding of [billing_analysis.py]

    The script loads every sheet of a workbook into a dictionary, prints four
    text reports and saves chart files.  The cells of a table are rationals
    ([Q]); the standard output is the list of the texts handed to [print], one
    entry per call; the file system is a set of directories and a map from
    path strings to file contents, a path being known by its spelling.  What
    the script delegates to libraries (the sorting of [DataFrame.sort_values],
    the rasteriser behind [plt.savefig], and the floating-point arithmetic and
    number formats) are interfaces, so a result stated over an interface
    holds for each implementation of it; exact arithmetic with decimal
    rounding is the reference implementation of the last. *)

From Stdlib Require Import QArith Qround Sorting.Sorted Sorting.Permutation.
From Stdlib Require Import Ascii String DecimalString.
From stdpp Require Import gmap strings list fin_maps.

Local Open Scope string_scope.

(** ** Text formatting (Python format specifications)

    Strings are UTF-8 byte strings; a width counts code points, as Python
    does. *)

Module Fmt.

(** [str(n)] for a non-negative integer. *)
Definition digits (n : Z) : string :=
  NilZero.string_of_uint (N.to_uint (Z.to_N n)).

(** [str(n)] for an integer. *)
Definition int_str (n : Z) : string :=
  if (n <? 0)%Z then "-" +:+ digits (Z.abs n) else digits n.

Definition spaces (n : nat) : string := string_of_list_ascii (repeat " "%char n).

(** A UTF-8 continuation byte, [10xxxxxx]. *)
Definition is_continuation (c : ascii) : bool :=
  match c with
  | Ascii _ _ _ _ _ _ b6 b7 => b7 && negb b6
  end.

(** [len(s)]: the number of code points. *)
Fixpoint py_len (s : string) : nat :=
  match s with
  | EmptyString => O
  | String c rest => ((if is_continuation c then 0 else 1) + py_len rest)%nat
  end.

(** [s.rjust(w)], the [>w] alignment. *)
Definition rjust (w : nat) (s : string) : string :=
  spaces (w - py_len s) +:+ s.

(** [s.ljust(w)], the default alignment of a string under a width. *)
Definition ljust (w : nat) (s : string) : string :=
  s +:+ spaces (w - py_len s).

(** [s.center(w)]: CPython puts [marg/2 + (marg & w & 1)] blanks on the left. *)
Definition center (w : nat) (s : string) : string :=
  let marg := w - py_len s in
  let left := (marg / 2 + (if Nat.odd marg && Nat.odd w then 1 else 0))%nat in
  spaces left +:+ s +:+ spaces (marg - left).

(** [s * n] *)
Fixpoint times (s : string) (n : nat) : string :=
  match n with
  | O => ""
  | S k => s +:+ times s k
  end.

(** The [,] option: a comma between groups of three digits, on the reversed
    digit list. *)
Fixpoint commas_rev (l : list ascii) : list ascii :=
  match l with
  | a :: b :: c :: ((_ :: _) as rest) => a :: b :: c :: ","%char :: commas_rev rest
  | _ => l
  end.

Definition with_commas (s : string) : string :=
  string_of_list_ascii (rev (commas_rev (rev (list_ascii_of_string s)))).

(** The functions below are the decimal reference for the number formats:
    they round the exact rational, where Python rounds the binary value of the
    float; the two agree except near a decimal tie.  The reporters call the
    formats through the [Floats] interface. *)

(** Rounding to the nearest integer, ties to even. *)
Definition round_half_even (q : Q) : Z :=
  let n := Qnum q in
  let d := Zpos (Qden q) in
  let fl := (n / d)%Z in
  match (2 * (n mod d) ?= d)%Z with
  | Lt => fl
  | Gt => (fl + 1)%Z
  | Eq => if Z.even fl then fl else (fl + 1)%Z
  end.

Definition pow10 (p : nat) : Z := (10 ^ Z.of_nat p)%Z.

Definition zero_pad (w : nat) (s : string) : string :=
  string_of_list_ascii (repeat "0"%char (w - String.length s)) +:+ s.

(** [format(q, ',.pf')] when [comma], [format(q, '.pf')] otherwise. *)
Definition fixed (comma : bool) (p : nat) (q : Q) : string :=
  let m := Z.abs (round_half_even (q * inject_Z (pow10 p))) in
  let ip := digits (m / pow10 p) in
  let ip := if comma then with_commas ip else ip in
  let fp := match p with
            | O => ""
            | _ => "." +:+ zero_pad p (digits (m mod pow10 p))
            end in
  (if (Qnum q <? 0)%Z then "-" else "") +:+ ip +:+ fp.

(** [format(q, '.p%')] *)
Definition percent (p : nat) (q : Q) : string :=
  fixed false p (q * 100) +:+ "%".

End Fmt.

(** ** Data model *)

(** A [Summary] row: a metric name and its value. *)
Record SummaryRow := { Metric : string; Value : Q }.

(** A [Client Breakdown] row. *)
Record ClientRow := { c_Customer : string; c_Revenue : Q; c_GM : Q; c_Calls : Z }.

(** A [Vendor Costs] row. *)
Record VendorRow := { v_Vendor : string; v_TotalCost : Q }.

(** A [Low Margin Clients] row. *)
Record LowClientRow := { lc_Customer : string; lc_GM : Q; lc_Revenue : Q }.

(** A [Country Breakdown] or [Low Margin Countries] row. *)
Record CountryRow := { k_Country : string; k_GM : Q; k_Revenue : Q }.

(** A [Carrier Breakdown] row. *)
Record CarrierRow := { r_NumberType : string; r_Revenue : Q; r_Cost : Q; r_GM : Q }.

(** A sheet is a table with one of the column sets the script reads.  A sheet
    stored under a name where the script expects other columns is reported as
    the [KeyError] of the first column it asks for. *)
Inductive sheet :=
  | Summary_sheet (rows : list SummaryRow)
  | Clients_sheet (rows : list ClientRow)
  | Vendors_sheet (rows : list VendorRow)
  | LowClients_sheet (rows : list LowClientRow)
  | Countries_sheet (rows : list CountryRow)
  | Carriers_sheet (rows : list CarrierRow).

(** What a chart is drawn from. *)
Inductive figure :=
  | Fig_revenue_margin (margins : list Q) (clients : list ClientRow)
  | Fig_country (countries : list CountryRow)
  | Fig_vendor (vendors : list VendorRow)
  | Fig_carrier (carriers : list CarrierRow).

Definition image := string.

(** A file is a workbook (its sheets in order) or a saved image. *)
Inductive file :=
  | Xlsx (sheets : list (string * sheet))
  | Png (img : image).

Inductive exn :=
  | KeyError (k : string)
  | IndexError
  | FileNotFoundError (p : string)
  | FileExistsError (p : string)
  | IsADirectoryError (p : string)
  | BadWorkbook (p : string)
  | RenderError.

(** The analyzer object ([filepath], [data]) and the world it acts on. *)
Record St := mkSt {
  filepath : string;
  data : gmap string sheet;
  stdout : list string;
  dirs : gset string;
  files : gmap string file
}.

(** A float the program computes: finite (its value), infinite or NaN.  The
    cells of a table are finite. *)
Inductive fval :=
  | Fin (q : Q)
  | Inf (negative : bool)
  | NaN.

(** The dictionary [generate_summary_report] returns. *)
Record SummaryResult := {
  current_revenue : Q;
  current_margin : Q;
  projected_margin : Q
}.

(** ** The libraries the script calls *)

(** [DataFrame.sort_values(col, ascending=False)] with its default [kind]. *)
Class Pandas := {
  sort_values_desc : forall {A : Type}, (A -> Q) -> list A -> list A
}.

(** What [sort_values] promises: the rows rearranged so that the column does
    not increase.  The default kind promises nothing about the order of rows
    with equal keys. *)
Definition sort_values_contract (P : Pandas) : Prop :=
  (forall (A : Type) (key : A -> Q) (l : list A),
     Permutation (sort_values_desc key l) l) /\
  (forall (A : Type) (key : A -> Q) (l : list A),
     StronglySorted (fun a b => key b <= key a)%Q (sort_values_desc key l)).

(** The rasteriser behind [plt.savefig]: the bytes of the image, or [None]
    when drawing raises. *)
Class Matplotlib := { render : figure -> option image }.

(** Floating-point arithmetic and its formatting, as [numpy], [pandas] and
    Python's [format] provide them: *)
Class Floats := {
  (** [column.sum()] *)
  column_sum : list Q -> Q;
  (** [a - b] *)
  float_sub : Q -> Q -> fval;
  (** [a / b] *)
  float_div : Q -> Q -> fval;
  (** [x * c] *)
  float_mul : fval -> Q -> fval;
  (** [format(x, ',.pf')] when the flag is set, [format(x, '.pf')] otherwise *)
  format_fixed : bool -> nat -> fval -> string;
  (** [format(x, '.p%')] *)
  format_percent : nat -> fval -> string
}.

(** ** A state and exception monad *)

Definition M (A : Type) : Type := St -> (exn + A) * St.

Definition ret {A} (a : A) : M A := fun s => (inr a, s).

Definition raise {A} (e : exn) : M A := fun s => (inl e, s).

Definition bind {A B} (m : M A) (f : A -> M B) : M B :=
  fun s => match m s with
           | (inr a, s') => f a s'
           | (inl e, s') => (inl e, s')
           end.

Notation "x <- m ;; k" := (bind m (fun x => k))
  (at level 100, m at next level, right associativity).
Notation "m ;;; k" := (bind m (fun _ => k))
  (at level 100, right associativity).

(** [for x in l: body x] *)
Fixpoint for_each {A} (l : list A) (body : A -> M unit) : M unit :=
  match l with
  | [] => ret tt
  | x :: rest => body x ;;; for_each rest body
  end.

Definition nl : string := String (ascii_of_nat 10) "".

(** [print(text)] *)
Definition print (text : string) : M unit :=
  fun s => (inr tt, mkSt (filepath s) (data s) (stdout s ++ [text]) (dirs s) (files s)).

(** [self.data[name]] *)
Definition get_sheet (name : string) : M sheet :=
  fun s => match data s !! name with
           | Some t => (inr t, s)
           | None => (inl (KeyError name), s)
           end.

Definition summary_rows (t : sheet) : M (list SummaryRow) :=
  match t with Summary_sheet rows => ret rows | _ => raise (KeyError "Metric") end.

Definition client_rows (t : sheet) : M (list ClientRow) :=
  match t with Clients_sheet rows => ret rows | _ => raise (KeyError "Revenue") end.

Definition vendor_rows (t : sheet) : M (list VendorRow) :=
  match t with Vendors_sheet rows => ret rows | _ => raise (KeyError "Total Cost") end.

Definition low_client_rows (t : sheet) : M (list LowClientRow) :=
  match t with LowClients_sheet rows => ret rows | _ => raise (KeyError "GM%") end.

Definition low_country_rows (t : sheet) : M (list CountryRow) :=
  match t with Countries_sheet rows => ret rows | _ => raise (KeyError "GM%") end.

Definition country_rows (t : sheet) : M (list CountryRow) :=
  match t with Countries_sheet rows => ret rows | _ => raise (KeyError "Revenue") end.

Definition carrier_rows (t : sheet) : M (list CarrierRow) :=
  match t with Carriers_sheet rows => ret rows | _ => raise (KeyError "Revenue") end.

(** ** Paths and the file system *)

Definition is_slash (c : ascii) : bool := Ascii.eqb c "/"%char.

Fixpoint drop_slashes (l : list ascii) : list ascii :=
  match l with
  | c :: rest => if is_slash c then drop_slashes rest else l
  | [] => []
  end.

Fixpoint after_slash (l : list ascii) : option (list ascii) :=
  match l with
  | c :: rest => if is_slash c then Some rest else after_slash rest
  | [] => None
  end.

(** [str(Path(p))], as far as the script needs it: the empty path is the
    current directory and trailing slashes are dropped.  A path is kept as it
    is spelled otherwise: an inner [//] or [./] stays, and directories and
    files are known by the spelling the script uses for them. *)
Definition Path (p : string) : string :=
  match list_ascii_of_string p with
  | [] => "."
  | l => match drop_slashes (rev l) with
         | [] => "/"
         | r => string_of_list_ascii (rev r)
         end
  end.

(** The directory a path names an entry of. *)
Definition dirname (p : string) : string :=
  match after_slash (rev (list_ascii_of_string p)) with
  | None => "."
  | Some r => match drop_slashes r with
              | [] => "/"
              | r' => string_of_list_ascii (rev r')
              end
  end.

(** The current directory and the root always exist. *)
Definition is_dir (s : St) (p : string) : bool :=
  String.eqb p "." || String.eqb p "/" || bool_decide (p ∈ dirs s).

(** [Path(p).mkdir(exist_ok=True)]: no [parents=True]. *)
Definition mkdir_exist_ok (p : string) : M unit :=
  fun s =>
    if is_dir s p then (inr tt, s)
    else match files s !! p with
         | Some _ => (inl (FileExistsError p), s)
         | None =>
             if is_dir s (dirname p)
             then (inr tt, mkSt (filepath s) (data s) (stdout s) ({[p]} ∪ dirs s) (files s))
             else (inl (FileNotFoundError p), s)
         end.

(** Writing (or overwriting) the file at [p]. *)
Definition write_file (p : string) (f : file) : M unit :=
  fun s =>
    if is_dir s p then (inl (IsADirectoryError p), s)
    else if is_dir s (dirname p)
    then (inr tt, mkSt (filepath s) (data s) (stdout s) (dirs s) (<[p := f]> (files s)))
    else (inl (FileNotFoundError p), s).

(** The figure is drawn, then [plt.savefig(p, ...)] writes it. *)
Definition savefig `{Matplotlib} (fig : figure) (p : string) : M unit :=
  match render fig with
  | Some img => write_file p (Png img)
  | None => raise RenderError
  end.

(** ** The analyzer ([class AVOXIBillingAnalyzer]) *)

Definition rule60 : string := Fmt.times "=" 60.

(** [pd.ExcelFile(self.filepath)] *)
Definition ExcelFile : M (list (string * sheet)) :=
  fun s => match files s !! filepath s with
           | None => (inl (FileNotFoundError (filepath s)), s)
           | Some (Png _) => (inl (BadWorkbook (filepath s)), s)
           | Some (Xlsx sheets) => (inr sheets, s)
           end.

(** [pd.read_excel(xl, sheet_name=name)]: the first sheet of that name. *)
Fixpoint read_excel (xl : list (string * sheet)) (name : string) : option sheet :=
  match xl with
  | [] => None
  | (n, t) :: rest => if String.eqb n name then Some t else read_excel rest name
  end.

(** [self.data[name] = t] *)
Definition set_sheet (name : string) (t : sheet) : M unit :=
  fun s => (inr tt, mkSt (filepath s) (<[name := t]> (data s)) (stdout s) (dirs s) (files s)).

Definition load_data : M unit :=
  xl <- ExcelFile ;;
  for_each (map fst xl) (fun name =>
    match read_excel xl name with
    | Some t => set_sheet name t
    | None => raise (KeyError name)
    end) ;;;
  n <- (fun s => (inr (size (data s)), s)) ;;
  print ("‚úì Loaded " +:+ Fmt.int_str (Z.of_nat n) +:+ " sheets successfully").

(** [__init__(self, filepath)] *)
Definition init (path : string) : M unit :=
  (fun s => (inr tt, mkSt path ∅ (stdout s) (dirs s) (files s))) ;;;
  load_data.

(** [summary.loc[summary['Metric'] == m, 'Value'].values[0]] *)
Definition lookup_metric (summary : list SummaryRow) (m : string) : M Q :=
  match List.filter (fun r => String.eqb (Metric r) m) summary with
  | r :: _ => ret (Value r)
  | [] => raise IndexError
  end.

Definition generate_summary_report `{Floats} : M SummaryResult :=
  print (nl +:+ rule60) ;;;
  print "EXECUTIVE SUMMARY" ;;;
  print rule60 ;;;
  t <- get_sheet "Summary" ;;
  summary <- summary_rows t ;;
  total_revenue <- lookup_metric summary "Total Revenue" ;;
  total_cost <- lookup_metric summary "Total Cost" ;;
  current_margin <- lookup_metric summary "Gross Margin % (Current)" ;;
  projected_revenue <- lookup_metric summary "Total Revenue (After Increase)" ;;
  projected_margin <- lookup_metric summary "Gross Margin % (After Increase)" ;;
  print (nl +:+ "Current Performance:") ;;;
  print ("  Revenue:       $" +:+ format_fixed true 2 (Fin total_revenue)) ;;;
  print ("  Cost:          $" +:+ format_fixed true 2 (Fin total_cost)) ;;;
  print ("  Gross Margin:  " +:+ format_percent 2 (Fin current_margin)) ;;;
  print (nl +:+ "Projected Performance (Mobile +7%, Landline +20%):") ;;;
  print ("  Revenue:       $" +:+ format_fixed true 2 (Fin projected_revenue)) ;;;
  print ("  Gross Margin:  " +:+ format_percent 2 (Fin projected_margin)) ;;;
  print ("  Improvement:   +" +:+
         format_percent 2 (float_sub projected_margin current_margin)) ;;;
  ret {| current_revenue := total_revenue;
         current_margin := current_margin;
         projected_margin := projected_margin |}.

(** [df.head(n)]: the first [n] rows, or all but the last [-n] when [n < 0]. *)
Definition head {A} (n : Z) (l : list A) : list A :=
  if (0 <=? n)%Z then firstn (Z.to_nat n) l
  else firstn (length l - Z.to_nat (- n)) l.

Definition client_line `{Floats} (row : ClientRow) : string :=
  Fmt.ljust 12 (c_Customer row) +:+ " | Rev: $" +:+
  Fmt.rjust 10 (format_fixed true 2 (Fin (c_Revenue row))) +:+ " | " +:+
  "Margin: " +:+ Fmt.rjust 6 (format_percent 1 (Fin (c_GM row))) +:+
  " | Calls: " +:+ Fmt.rjust 6 (Fmt.int_str (c_Calls row)).

Definition analyze_top_clients `{Pandas} `{Floats} (n : Z) : M (list ClientRow) :=
  t <- get_sheet "Client Breakdown" ;;
  clients <- client_rows t ;;
  let clients := sort_values_desc c_Revenue clients in
  print (nl +:+ rule60) ;;;
  print ("TOP " +:+ Fmt.int_str n +:+ " CLIENTS BY REVENUE") ;;;
  print rule60 ;;;
  let top_clients := head n clients in
  for_each top_clients (fun row => print (client_line row)) ;;;
  ret top_clients.

(** Exact division, but for a zero divisor, which gives an infinity or a NaN
    as it does for [numpy] floats. *)
Definition np_div (a b : Q) : fval :=
  if Qeq_bool b 0%Q then
    (if Qeq_bool a 0%Q then NaN else Inf (Qnum a <? 0)%Z)
  else Fin (a / b)%Q.

Definition np_mul (x : fval) (c : Q) : fval :=
  match x with
  | Fin q => Fin (q * c)%Q
  | Inf neg => if Qeq_bool c 0%Q then NaN else Inf (xorb neg (Qnum c <? 0)%Z)
  | NaN => NaN
  end.

(** The decimal reference for [format(x, ',.pf')] and [format(x, '.pf')]. *)
Definition ref_fixed (comma : bool) (p : nat) (x : fval) : string :=
  match x with
  | Fin q => Fmt.fixed comma p q
  | Inf false => "inf"
  | Inf true => "-inf"
  | NaN => "nan"
  end.

(** The decimal reference for [format(x, '.p%')]. *)
Definition ref_percent (p : nat) (x : fval) : string :=
  match x with
  | Fin q => Fmt.percent p q
  | Inf false => "inf%"
  | Inf true => "-inf%"
  | NaN => "nan%"
  end.

(** [vendors['Total Cost'].sum()] *)
Definition total_cost_sum `{Floats} (vendors : list VendorRow) : Q :=
  column_sum (map v_TotalCost vendors).

(** [pct = (row['Total Cost'] / total_cost) * 100] *)
Definition vendor_pct `{Floats} (total_cost : Q) (row : VendorRow) : fval :=
  float_mul (float_div (v_TotalCost row) total_cost) 100%Q.

Definition vendor_line `{Floats} (total_cost : Q) (row : VendorRow) : string :=
  Fmt.ljust 12 (v_Vendor row) +:+ " | Cost: $" +:+
  Fmt.rjust 10 (format_fixed true 2 (Fin (v_TotalCost row))) +:+ " | " +:+
  "Share: " +:+ Fmt.rjust 5 (format_fixed false 1 (vendor_pct total_cost row)) +:+ "%".

Definition analyze_vendor_efficiency `{Floats} : M sheet :=
  t <- get_sheet "Vendor Costs" ;;
  vendors <- vendor_rows t ;;
  let total_cost := total_cost_sum vendors in
  print (nl +:+ rule60) ;;;
  print "VENDOR COST ANALYSIS" ;;;
  print rule60 ;;;
  for_each vendors (fun row => print (vendor_line total_cost row)) ;;;
  ret t.

Definition low_client_line `{Floats} (row : LowClientRow) : string :=
  "  " +:+ Fmt.ljust 12 (lc_Customer row) +:+ " | Margin: " +:+
  Fmt.rjust 6 (format_percent 1 (Fin (lc_GM row))) +:+ " | " +:+
  "Revenue: $" +:+ Fmt.rjust 8 (format_fixed true 2 (Fin (lc_Revenue row))).

Definition low_country_line `{Floats} (row : CountryRow) : string :=
  "  " +:+ Fmt.ljust 15 (k_Country row) +:+ " | Margin: " +:+
  Fmt.rjust 6 (format_percent 1 (Fin (k_GM row))) +:+ " | " +:+
  "Revenue: $" +:+ Fmt.rjust 10 (format_fixed true 2 (Fin (k_Revenue row))).

(** [gm < 0.35] *)
Definition below_threshold (gm : Q) : bool :=
  negb (Qle_bool (35 # 100)%Q gm).

Definition identify_optimization_opportunities `{Floats} : M (sheet * sheet) :=
  low_margin_clients <- get_sheet "Low Margin Clients" ;;
  low_margin_countries <- get_sheet "Low Margin Countries" ;;
  print (nl +:+ rule60) ;;;
  print "OPTIMIZATION OPPORTUNITIES" ;;;
  print rule60 ;;;
  print (nl +:+ "Low Margin Clients (< 35%):") ;;;
  rows <- low_client_rows low_margin_clients ;;
  for_each rows (fun row =>
    if below_threshold (lc_GM row) then print (low_client_line row) else ret tt) ;;;
  print (nl +:+ "Low Margin Countries (< 35%):") ;;;
  rows <- low_country_rows low_margin_countries ;;
  for_each rows (fun row =>
    if below_threshold (k_GM row) then print (low_country_line row) else ret tt) ;;;
  ret (low_margin_clients, low_margin_countries).

Definition create_visualizations `{Pandas} `{Matplotlib} (output_dir : string) : M unit :=
  mkdir_exist_ok (Path output_dir) ;;;
  t <- get_sheet "Summary" ;;
  summary <- summary_rows t ;;
  current_margin <- lookup_metric summary "Gross Margin % (Current)" ;;
  projected_margin <- lookup_metric summary "Gross Margin % (After Increase)" ;;
  let margins := [current_margin * 100; projected_margin * 100]%Q in
  t <- get_sheet "Client Breakdown" ;;
  clients <- client_rows t ;;
  let clients := head 10 (sort_values_desc c_Revenue clients) in
  savefig (Fig_revenue_margin margins clients)
          (output_dir +:+ "/01_revenue_margin_analysis.png") ;;;
  t <- get_sheet "Country Breakdown" ;;
  countries <- country_rows t ;;
  let countries := sort_values_desc k_Revenue countries in
  savefig (Fig_country countries) (output_dir +:+ "/02_country_performance.png") ;;;
  t <- get_sheet "Vendor Costs" ;;
  vendors <- vendor_rows t ;;
  let vendors := sort_values_desc v_TotalCost vendors in
  savefig (Fig_vendor vendors) (output_dir +:+ "/03_vendor_costs.png") ;;;
  t <- get_sheet "Carrier Breakdown" ;;
  carriers <- carrier_rows t ;;
  let carriers := sort_values_desc r_Revenue carriers in
  savefig (Fig_carrier carriers) (output_dir +:+ "/04_carrier_analysis.png") ;;;
  print (nl +:+ "‚úì All visualizations saved to '" +:+ output_dir +:+ "/' directory").

Definition block : string := "‚ñà".

Definition banner : list string :=
  [ nl +:+ Fmt.times block 60;
    Fmt.times block 2 +:+ Fmt.spaces 56 +:+ Fmt.times block 2;
    Fmt.times block 2 +:+
      Fmt.center 56 "  AVOXI BILLING ANALYSIS - COMPREHENSIVE REPORT  " +:+
      Fmt.times block 2;
    Fmt.times block 2 +:+ Fmt.spaces 56 +:+ Fmt.times block 2;
    Fmt.times block 60 ].

(** The four numbered recommendations, each with the lines printed for it. *)
Definition recommendation_statements : list (list string) :=
  [ [ nl +:+ "1. ‚úì Implement pricing increase: Mobile +7%, Landline +20%";
      "   ‚Üí Achieves 46.37% margin (exceeds 45% target)" ];
    [ nl +:+ "2. ‚úì Optimize routing for short-duration calls";
      "   ‚Üí Route to per-second vendors (Vendor 2) when possible" ];
    [ nl +:+ "3. ‚úì Review pricing for low-margin segments:";
      "   ‚Üí Countries: United States, Chile, Australia";
      "   ‚Üí Clients: Review those below 35% margin threshold" ];
    [ nl +:+ "4. ‚úì Monitor vendor concentration";
      "   ‚Üí Top 2 vendors account for ~74% of costs";
      "   ‚Üí Consider diversification strategy" ] ].

(** Everything [run_full_analysis] prints after the last step. *)
Definition recommendations_block : list string :=
  [ nl +:+ rule60; "KEY RECOMMENDATIONS"; rule60 ] ++
  concat recommendation_statements ++
  [ nl +:+ rule60; "Analysis completed successfully!"; rule60 +:+ nl ].

Definition run_full_analysis `{Pandas} `{Matplotlib} `{Floats} : M unit :=
  for_each banner print ;;;
  generate_summary_report ;;;
  analyze_top_clients 10 ;;;
  analyze_vendor_efficiency ;;;
  identify_optimization_opportunities ;;;
  create_visualizations "visualizations" ;;;
  for_each recommendations_block print.

(** [main()] *)
Definition main `{Pandas} `{Matplotlib} `{Floats} : M unit :=
  init "data/AVOXI_Billing_Analysis_.xlsx" ;;;
  run_full_analysis ;;;
  print "üìä All analyses complete!" ;;;
  print "üìÅ Check the 'visualizations' folder for charts" ;;;
  print ("‚úÖ Project ready for portfolio/GitHub" +:+ nl).

(** ** Reference implementations of the libraries *)

(** A stable insertion sort, largest key first. *)
Fixpoint insert_desc {A} (key : A -> Q) (x : A) (l : list A) : list A :=
  match l with
  | [] => [x]
  | y :: rest =>
      if Qle_bool (key y) (key x) then x :: y :: rest
      else y :: insert_desc key x rest
  end.

Fixpoint isort_desc {A} (key : A -> Q) (l : list A) : list A :=
  match l with
  | [] => []
  | x :: rest => insert_desc key x (isort_desc key rest)
  end.

(** A rasteriser that always succeeds and one that always fails. *)
Definition render_ok (fig : figure) : option image := Some "PNG".

Definition render_fail (fig : figure) : option image := None.

Definition insertion_pandas : Pandas := {| sort_values_desc := @isort_desc |}.

(** The same sort run on the rows in reverse: tied rows come out the other
    way round. *)
Definition reversing_pandas : Pandas :=
  {| sort_values_desc := fun A key l => isort_desc key (rev l) |}.

Definition ok_matplotlib : Matplotlib := {| render := render_ok |}.

Definition failing_matplotlib : Matplotlib := {| render := render_fail |}.

(** Exact arithmetic with the decimal formats; it is the instance of the
    statements that name no other. *)
#[global] Instance exact_floats : Floats := {|
  column_sum := fun l => fold_left Qplus l 0%Q;
  float_sub := fun a b => Fin (a - b)%Q;
  float_div := np_div;
  float_mul := np_mul;
  format_fixed := ref_fixed;
  format_percent := ref_percent
|}.

(** Arithmetic without rounding: what a statement over exact arithmetic asks
    of the library. *)
Definition exact_arithmetic (F : Floats) : Prop :=
  (forall l, column_sum l == fold_right Qplus 0 l)%Q /\
  (forall a b, ~ (b == 0)%Q -> exists q, float_div a b = Fin q /\ (q == a / b)%Q) /\
  (forall q c, exists q', float_mul (Fin q) c = Fin q' /\ (q' == q * c)%Q) /\
  (forall a b, exists q, float_sub a b = Fin q /\ (q == a - b)%Q).

(** Division by a zero sum as [numpy] does it, and the way [format] writes
    the results: 0/0 is nan, x/0 is an infinity of the sign of x, both are
    kept by a multiplication by 100. *)
Definition numpy_zero_division (F : Floats) : Prop :=
  (forall a b, (b == 0)%Q ->
     float_div a b = if Qeq_bool a 0 then NaN else Inf (Qnum a <? 0)%Z) /\
  (forall neg, float_mul NaN 100 = NaN /\ float_mul (Inf neg) 100 = Inf neg) /\
  format_fixed false 1 NaN = "nan" /\
  (forall neg : bool,
     format_fixed false 1 (Inf neg) = if neg then "-inf" else "inf").

(** ** Vocabulary of the statements *)

(** The state after [lines] were printed. *)
Definition out (s : St) (lines : list string) : St :=
  mkSt (filepath s) (data s) (stdout s ++ lines) (dirs s) (files s).

(** The operations that are run on a loaded analyzer. *)
Inductive operation :=
  | Op_summary
  | Op_top_clients (n : Z)
  | Op_vendor
  | Op_optimization
  | Op_visualizations (output_dir : string)
  | Op_full.

Definition perform `{Pandas} `{Matplotlib} `{Floats} (op : operation) : M unit :=
  match op with
  | Op_summary => generate_summary_report ;;; ret tt
  | Op_top_clients n => analyze_top_clients n ;;; ret tt
  | Op_vendor => analyze_vendor_efficiency ;;; ret tt
  | Op_optimization => identify_optimization_opportunities ;;; ret tt
  | Op_visualizations output_dir => create_visualizations output_dir
  | Op_full => run_full_analysis
  end.

(** The state with its table collection replaced. *)
Definition set_data (s : St) (d : gmap string sheet) : St :=
  mkSt (filepath s) d (stdout s) (dirs s) (files s).

(** The dictionary after the loading loop went through [names]. *)
Definition load_fold (xl : list (string * sheet)) (names : list string)
    (d : gmap string sheet) : gmap string sheet :=
  fold_left (fun d name => match read_excel xl name with
                           | Some t => <[name := t]> d
                           | None => d
                           end) names d.

(** The state with its files replaced. *)
Definition set_files (s : St) (f : gmap string file) : St :=
  mkSt (filepath s) (data s) (stdout s) (dirs s) f.

(** The names [create_visualizations] saves charts under, and their paths. *)
Definition chart_names : list string :=
  [ "/01_revenue_margin_analysis.png"; "/02_country_performance.png";
    "/03_vendor_costs.png"; "/04_carrier_analysis.png" ].

Definition chart_paths (output_dir : string) : list string :=
  map (fun name => output_dir +:+ name) chart_names.

(** The state with its directories replaced. *)
Definition set_dirs (s : St) (d : gset string) : St :=
  mkSt (filepath s) (data s) (stdout s) d (files s).

(** The expected output is written out below from the text of the source,
    apart from the definitions of the analyzer above. *)

(** Sixty equals signs. *)
Definition rule : string :=
  "============================================================".

(** What [generate_summary_report] prints after the heading. *)
Definition summary_lines `{Floats} (rev cost cm prev pm : Q) : list string :=
  [ nl +:+ "Current Performance:";
    "  Revenue:       $" +:+ format_fixed true 2 (Fin rev);
    "  Cost:          $" +:+ format_fixed true 2 (Fin cost);
    "  Gross Margin:  " +:+ format_percent 2 (Fin cm);
    nl +:+ "Projected Performance (Mobile +7%, Landline +20%):";
    "  Revenue:       $" +:+ format_fixed true 2 (Fin prev);
    "  Gross Margin:  " +:+ format_percent 2 (Fin pm);
    "  Improvement:   +" +:+ format_percent 2 (float_sub pm cm) ].

Definition summary_heading : list string :=
  [ nl +:+ rule; "EXECUTIVE SUMMARY"; rule ].

Definition vendor_heading : list string :=
  [ nl +:+ rule; "VENDOR COST ANALYSIS"; rule ].

Definition optimization_heading : list string :=
  [ nl +:+ rule; "OPTIMIZATION OPPORTUNITIES"; rule ].

Definition top_heading (n : Z) : list string :=
  [ nl +:+ rule; "TOP " +:+ Fmt.int_str n +:+ " CLIENTS BY REVENUE"; rule ].

(** The line of a client in the top-clients report. *)
Definition expected_client_line `{Floats} (row : ClientRow) : string :=
  Fmt.ljust 12 (c_Customer row) +:+ " | Rev: $" +:+
  Fmt.rjust 10 (format_fixed true 2 (Fin (c_Revenue row))) +:+
  " | Margin: " +:+ Fmt.rjust 6 (format_percent 1 (Fin (c_GM row))) +:+
  " | Calls: " +:+ Fmt.rjust 6 (Fmt.int_str (c_Calls row)).

(** The line of a vendor whose share of the total is [share]. *)
Definition expected_vendor_line `{Floats} (row : VendorRow) (share : fval) : string :=
  Fmt.ljust 12 (v_Vendor row) +:+ " | Cost: $" +:+
  Fmt.rjust 10 (format_fixed true 2 (Fin (v_TotalCost row))) +:+
  " | Share: " +:+ Fmt.rjust 5 (format_fixed false 1 share) +:+ "%".

(** The share the vendor report computes for a row of [vendors]. *)
Definition expected_share `{Floats} (vendors : list VendorRow) (row : VendorRow) : fval :=
  float_mul (float_div (v_TotalCost row) (column_sum (map v_TotalCost vendors))) 100%Q.

(** The lines of a low-margin client and of a low-margin country. *)
Definition expected_low_client_line `{Floats} (row : LowClientRow) : string :=
  "  " +:+ Fmt.ljust 12 (lc_Customer row) +:+ " | Margin: " +:+
  Fmt.rjust 6 (format_percent 1 (Fin (lc_GM row))) +:+
  " | Revenue: $" +:+ Fmt.rjust 8 (format_fixed true 2 (Fin (lc_Revenue row))).

Definition expected_low_country_line `{Floats} (row : CountryRow) : string :=
  "  " +:+ Fmt.ljust 15 (k_Country row) +:+ " | Margin: " +:+
  Fmt.rjust 6 (format_percent 1 (Fin (k_GM row))) +:+
  " | Revenue: $" +:+ Fmt.rjust 10 (format_fixed true 2 (Fin (k_Revenue row))).

(** [gm < 0.35], decided. *)
Definition is_below_35 (gm : Q) : bool :=
  if Qlt_le_dec gm (35 # 100) then true else false.

(** An operation that leaves the table collection and the file path alone. *)
Definition keeps_data {A} (m : M A) : Prop :=
  forall s, data (snd (m s)) = data s /\ filepath (snd (m s)) = filepath s.

(** Steps that only read the state. *)
Definition reads_only {A} (m : M A) : Prop :=
  forall s r s', m s = (r, s') -> s' = s.

(** The line [load_data] prints after loading [n] sheets. *)
Definition loaded_line (n : nat) : string :=
  "‚úì Loaded " +:+ Fmt.int_str (Z.of_nat n) +:+ " sheets successfully".

(** A step whose result and printed lines are determined by the table
    collection alone, and whose only effect is to append those lines to the
    output: file path, tables, directories and files stay as they are. *)
Definition report_only {A} (m : M A) : Prop :=
  forall d, exists r lines, forall fp so ds g,
    m (mkSt fp d so ds g) = (r, mkSt fp d (so ++ lines) ds g).

(** A sequence of file writes, applied in order. *)
Definition apply_writes (ups : list (string * file)) (g : gmap string file)
    : gmap string file :=
  fold_left (fun g u => <[fst u := snd u]> g) ups g.

(** The file the writes leave at [k], if one of them is to [k]. *)
Fixpoint last_write (ups : list (string * file)) (k : string) : option file :=
  match ups with
  | [] => None
  | u :: rest =>
      match last_write rest k with
      | Some f => Some f
      | None => if String.eqb (fst u) k then Some (snd u) else None
      end
  end.

(** A step that may print and write files, and whose result, printed lines
    and writes are determined by the file path, the tables and the directories:
    it reads neither the earlier output nor the content of the disk. *)
Definition disk_blind {A} (m : M A) : Prop :=
  forall fp d ds, exists r lines ups, forall so g,
    m (mkSt fp d so ds g) = (r, mkSt fp d (so ++ lines) ds (apply_writes ups g)).

(** What [create_visualizations] does once the directory is there. *)
Definition render_charts `{Pandas} `{Matplotlib} (output_dir : string) : M unit :=
  t <- get_sheet "Summary" ;;
  summary <- summary_rows t ;;
  current_margin <- lookup_metric summary "Gross Margin % (Current)" ;;
  projected_margin <- lookup_metric summary "Gross Margin % (After Increase)" ;;
  let margins := [current_margin * 100; projected_margin * 100]%Q in
  t <- get_sheet "Client Breakdown" ;;
  clients <- client_rows t ;;
  let clients := head 10 (sort_values_desc c_Revenue clients) in
  savefig (Fig_revenue_margin margins clients)
          (output_dir +:+ "/01_revenue_margin_analysis.png") ;;;
  t <- get_sheet "Country Breakdown" ;;
  countries <- country_rows t ;;
  let countries := sort_values_desc k_Revenue countries in
  savefig (Fig_country countries) (output_dir +:+ "/02_country_performance.png") ;;;
  t <- get_sheet "Vendor Costs" ;;
  vendors <- vendor_rows t ;;
  let vendors := sort_values_desc v_TotalCost vendors in
  savefig (Fig_vendor vendors) (output_dir +:+ "/03_vendor_costs.png") ;;;
  t <- get_sheet "Carrier Breakdown" ;;
  carriers <- carrier_rows t ;;
  let carriers := sort_values_desc r_Revenue carriers in
  savefig (Fig_carrier carriers) (output_dir +:+ "/04_carrier_analysis.png") ;;;
  print (nl +:+ "‚úì All visualizations saved to '" +:+ output_dir +:+ "/' directory").

(** The line the renderer prints when it is done. *)
Definition saved_line (output_dir : string) : string :=
  nl +:+ "‚úì All visualizations saved to '" +:+ output_dir +:+ "/' directory".

(** A step that, whether it returns or raises, leaves every file outside
    [paths] as it was. *)
Definition touches_only (paths : list string) {A} (m : M A) : Prop :=
  forall s k, ~ In k paths -> files (snd (m s)) !! k = files s !! k.

(** What the optimization report prints. *)
Definition optimization_lines `{Floats}
    (clients : list LowClientRow) (countries : list CountryRow) : list string :=
  optimization_heading ++
  [nl +:+ "Low Margin Clients (< 35%):"] ++
  map expected_low_client_line (List.filter (fun r => is_below_35 (lc_GM r)) clients) ++
  [nl +:+ "Low Margin Countries (< 35%):"] ++
  map expected_low_country_line (List.filter (fun r => is_below_35 (k_GM r)) countries).

(** The banner of the full analysis: rows of sixty blocks around the title,
    which is centred in 56 columns. *)
Definition expected_banner : list string :=
  [ nl +:+ "‚ñà‚ñà‚ñà‚ñà‚ñà‚ñà‚ñà‚ñà‚ñà‚ñà‚ñà‚ñà‚ñà‚ñà‚ñà‚ñà‚ñà‚ñà‚ñà‚ñà‚ñà‚ñà‚ñà‚ñà‚ñà‚ñà‚ñà‚ñà‚ñà‚ñà‚ñà‚ñà‚ñà‚ñà‚ñà‚ñà‚ñà‚ñà‚ñà‚ñà‚ñà‚ñà‚ñà‚ñà‚ñà‚ñà‚ñà‚ñà‚ñà‚ñà‚ñà‚ñà‚ñà‚ñà‚ñà‚ñà‚ñà‚ñà‚ñà‚ñà";
    "‚ñà‚ñà" +:+ "                                                        " +:+ "‚ñà‚ñà";
    "‚ñà‚ñà" +:+ "     AVOXI BILLING ANALYSIS - COMPREHENSIVE REPORT      " +:+ "‚ñà‚ñà";
    "‚ñà‚ñà" +:+ "                                                        " +:+ "‚ñà‚ñà";
    "‚ñà‚ñà‚ñà‚ñà‚ñà‚ñà‚ñà‚ñà‚ñà‚ñà‚ñà‚ñà‚ñà‚ñà‚ñà‚ñà‚ñà‚ñà‚ñà‚ñà‚ñà‚ñà‚ñà‚ñà‚ñà‚ñà‚ñà‚ñà‚ñà‚ñà‚ñà‚ñà‚ñà‚ñà‚ñà‚ñà‚ñà‚ñà‚ñà‚ñà‚ñà‚ñà‚ñà‚ñà‚ñà‚ñà‚ñà‚ñà‚ñà‚ñà‚ñà‚ñà‚ñà‚ñà‚ñà‚ñà‚ñà‚ñà‚ñà‚ñà" ].

(** The recommendations: a heading, four numbered statements, a closing. *)
Definition expected_recommendations : list string :=
  [ nl +:+ rule;
    "KEY RECOMMENDATIONS";
    rule;
    nl +:+ "1. ‚úì Implement pricing increase: Mobile +7%, Landline +20%";
    "   ‚Üí Achieves 46.37% margin (exceeds 45% target)";
    nl +:+ "2. ‚úì Optimize routing for short-duration calls";
    "   ‚Üí Route to per-second vendors (Vendor 2) when possible";
    nl +:+ "3. ‚úì Review pricing for low-margin segments:";
    "   ‚Üí Countries: United States, Chile, Australia";
    "   ‚Üí Clients: Review those below 35% margin threshold";
    nl +:+ "4. ‚úì Monitor vendor concentration";
    "   ‚Üí Top 2 vendors account for ~74% of costs";
    "   ‚Üí Consider diversification strategy";
    nl +:+ rule;
    "Analysis completed successfully!";
    rule +:+ nl ].

(** Everything a complete run of [run_full_analysis] prints. *)
Definition full_report `{Pandas} `{Floats} (rev cost cm prev pm : Q)
    (clients : list ClientRow) (vendors : list VendorRow)
    (low_clients : list LowClientRow) (low_countries : list CountryRow) : list string :=
  expected_banner ++ summary_heading ++ summary_lines rev cost cm prev pm ++
  top_heading 10 ++
  map expected_client_line (firstn 10 (sort_values_desc c_Revenue clients)) ++
  vendor_heading ++
  map (fun row => expected_vendor_line row (expected_share vendors row)) vendors ++
  optimization_lines low_clients low_countries ++
  [saved_line "visualizations"] ++ expected_recommendations.

(** The three lines [main] prints after the run. *)
Definition closing_lines : list string :=
  [ "üìä All analyses complete!"; "üìÅ Check the 'visualizations' folder for charts"; "‚úÖ Project ready for portfolio/GitHub" +:+ nl ].

(** The tables a reporter reads. *)
Definition reporter_tables : list string :=
  [ "Summary"; "Client Breakdown"; "Vendor Costs";
    "Low Margin Clients"; "Low Margin Countries" ].

(** The first row of a table whose [Metric] is [m], if there is one. *)
Definition first_row (m : string) (rows : list SummaryRow) : option SummaryRow :=
  List.find (fun r => String.eqb (Metric r) m) rows.

(** The components of a path: what stands between its slashes, without the
    empty components and the dots that name no step. *)
Fixpoint components_from (cur : list ascii) (l : list ascii) : list string :=
  match l with
  | [] => [string_of_list_ascii (rev cur)]
  | c :: rest =>
      if Ascii.eqb c "/"%char
      then string_of_list_ascii (rev cur) :: components_from [] rest
      else components_from (c :: cur) rest
  end.

Definition components (p : string) : list string :=
  List.filter (fun c => negb (String.eqb c "" || String.eqb c "."))
              (components_from [] (list_ascii_of_string p)).

Definition is_absolute (p : string) : bool :=
  match p with
  | String c _ => Ascii.eqb c "/"%char
  | EmptyString => false
  end.

(** Whether two paths may name the same file, as far as their spelling
    tells: they have the same components, or one of them steps up with two
    dots, or one is absolute and the other relative.  [out//a.png], [out/a.png]
    and [./out/a.png] are spellings of one file. *)
Definition same_file (k p : string) : bool :=
  existsb (String.eqb "..") (components k) ||
  existsb (String.eqb "..") (components p) ||
  xorb (is_absolute k) (is_absolute p) ||
  bool_decide (components k = components p).

(** The rows of a table whose [Metric] is [m]. *)
Definition matching (m : string) (rows : list SummaryRow) : list SummaryRow :=
  List.filter (fun r => String.eqb (Metric r) m) rows.

(** The five metrics [generate_summary_report] looks up. *)
Definition reported_metrics : list string :=
  [ "Total Revenue"; "Total Cost"; "Gross Margin % (Current)";
    "Total Revenue (After Increase)"; "Gross Margin % (After Increase)" ].

Definition Qsum (l : list Q) : Q := fold_right Qplus 0%Q l.

(** Runs of blanks collapsed to one blank, leading blanks dropped: a printed
    line without its column padding. *)
Fixpoint squeeze_from (after_blank : bool) (l : list ascii) : list ascii :=
  match l with
  | [] => []
  | c :: rest =>
      if Ascii.eqb c " "%char
      then (if after_blank then squeeze_from true rest
            else c :: squeeze_from true rest)
      else c :: squeeze_from false rest
  end.

Definition squeeze (s : string) : string :=
  string_of_list_ascii (squeeze_from true (list_ascii_of_string s)).

(** Sample tables. *)
Definition sample_summary : list SummaryRow :=
  [ {| Metric := "Total Revenue"; Value := 1000000 |};
    {| Metric := "Total Cost"; Value := 600000 |};
    {| Metric := "Gross Margin % (Current)"; Value := 40 # 100 |};
    {| Metric := "Total Revenue (After Increase)"; Value := 1100000 |};
    {| Metric := "Gross Margin % (After Increase)"; Value := 4637 # 10000 |} ].

Definition sample_clients : list ClientRow :=
  [ {| c_Customer := "Client A"; c_Revenue := 1200; c_GM := 30 # 100; c_Calls := 40 |};
    {| c_Customer := "Client B"; c_Revenue := 5000; c_GM := 45 # 100; c_Calls := 310 |};
    {| c_Customer := "Client C"; c_Revenue := 2500; c_GM := 35 # 100; c_Calls := 95 |} ].

Definition sample_vendors : list VendorRow :=
  [ {| v_Vendor := "Vendor 1"; v_TotalCost := 300 |};
    {| v_Vendor := "Vendor 2"; v_TotalCost := 500 |};
    {| v_Vendor := "Vendor 3"; v_TotalCost := 200 |} ].

Definition sample_low_clients : list LowClientRow :=
  [ {| lc_Customer := "Client A"; lc_GM := 30 # 100; lc_Revenue := 1200 |};
    {| lc_Customer := "Client C"; lc_GM := 35 # 100; lc_Revenue := 2500 |};
    {| lc_Customer := "Client D"; lc_GM := 3499 # 10000; lc_Revenue := 800 |} ].

Definition sample_countries : list CountryRow :=
  [ {| k_Country := "Chile"; k_GM := 28 # 100; k_Revenue := 900 |};
    {| k_Country := "Canada"; k_GM := 35 # 100; k_Revenue := 4100 |};
    {| k_Country := "Australia"; k_GM := 33 # 100; k_Revenue := 1500 |} ].

Definition sample_carriers : list CarrierRow :=
  [ {| r_NumberType := "Mobile"; r_Revenue := 6000; r_Cost := 3900; r_GM := 35 # 100 |};
    {| r_NumberType := "Landline"; r_Revenue := 2700; r_Cost := 1400; r_GM := 48 # 100 |} ].

Definition sample_workbook : list (string * sheet) :=
  [ ("Summary", Summary_sheet sample_summary);
    ("Client Breakdown", Clients_sheet sample_clients);
    ("Vendor Costs", Vendors_sheet sample_vendors);
    ("Low Margin Clients", LowClients_sheet sample_low_clients);
    ("Low Margin Countries", Countries_sheet sample_countries);
    ("Country Breakdown", Countries_sheet sample_countries);
    ("Carrier Breakdown", Carriers_sheet sample_carriers) ].

(** A Summary table with two Total Revenue rows. *)
Definition duplicated_summary : list SummaryRow :=
  {| Metric := "Total Revenue"; Value := 1 |} ::
  {| Metric := "Total Revenue"; Value := 2 |} :: List.tl sample_summary.

Definition duplicated_state : St :=
  mkSt "" {["Summary" := Summary_sheet duplicated_summary]} [] ∅ ∅.

(** Two clients of equal Revenue. *)
Definition tied_clients : list ClientRow :=
  [ {| c_Customer := "Client A"; c_Revenue := 100; c_GM := 30 # 100; c_Calls := 1 |};
    {| c_Customer := "Client B"; c_Revenue := 100; c_GM := 40 # 100; c_Calls := 2 |} ].

Definition tied_state : St :=
  mkSt "" {["Client Breakdown" := Clients_sheet tied_clients]} [] ∅ ∅.

(** A Summary table whose projected margin is below the current one. *)
Definition declining_summary : list SummaryRow :=
  [ {| Metric := "Total Revenue"; Value := 1000 |};
    {| Metric := "Total Cost"; Value := 600 |};
    {| Metric := "Gross Margin % (Current)"; Value := 40 # 100 |};
    {| Metric := "Total Revenue (After Increase)"; Value := 900 |};
    {| Metric := "Gross Margin % (After Increase)"; Value := 38 # 100 |} ].

Definition declining_state : St :=
  mkSt "" {["Summary" := Summary_sheet declining_summary]} [] ∅ ∅.

(** Vendor tables whose costs cancel out or are all zero. *)
Definition zero_total_vendors : list VendorRow :=
  [ {| v_Vendor := "Vendor 1"; v_TotalCost := 50 |};
    {| v_Vendor := "Credit"; v_TotalCost := -50 |};
    {| v_Vendor := "Idle"; v_TotalCost := 0 |} ].

Definition zero_total_state : St :=
  mkSt "" {["Vendor Costs" := Vendors_sheet zero_total_vendors]} [] ∅ ∅.

(** A fresh process: nothing loaded, nothing printed, only the workbook on
    disk, inside the directory [data]. *)
Definition boot : St :=
  mkSt "" ∅ [] {["data"]}
       {["data/AVOXI_Billing_Analysis_.xlsx" := Xlsx sample_workbook]}.

(** The analyzer after [__init__] on the sample workbook. *)
Definition loaded : St :=
  snd (init "data/AVOXI_Billing_Analysis_.xlsx" boot).

(** The analyzer holds the sample tables; nothing is on disk yet. *)
Definition empty_disk : St := mkSt "" (data loaded) [] ∅ ∅.

(** An analyzer loaded from a workbook that has no Carrier Breakdown sheet. *)
Definition no_carriers : St :=
  snd (init "data/AVOXI_Billing_Analysis_.xlsx"
         (mkSt "" ∅ [] {["data"]}
            {["data/AVOXI_Billing_Analysis_.xlsx" :=
                Xlsx (List.filter
                        (fun e => negb (String.eqb (fst e) "Carrier Breakdown"))
                        sample_workbook)]})).

(** An analyzer whose vendor table differs from the sample's. *)
Definition other_loaded : St :=
  set_data loaded
    (<["Vendor Costs" := Vendors_sheet [ {| v_Vendor := "Vendor 9"; v_TotalCost := 75 |} ]]>
       (data loaded)).

(** ** Formatting examples *)

Example fixed_million : Fmt.fixed true 2 1000000 = "1,000,000.00".
Proof. vm_compute. reflexivity. Qed.

Example fixed_half_even : Fmt.fixed false 1 (1 # 4) = "0.2" /\ Fmt.fixed false 1 (3 # 4) = "0.8".
Proof. vm_compute. split; reflexivity. Qed.

Example fixed_negative : Fmt.fixed true 2 (-(12345678 # 10)) = "-1,234,567.80".
Proof. vm_compute. reflexivity. Qed.

Example percent_margin : Fmt.percent 2 (4637 # 10000) = "46.37%".
Proof. vm_compute. reflexivity. Qed.

Example ljust_counts_code_points :
  Fmt.py_len "José" = 4%nat /\ String.length "José" = 5%nat /\
  Fmt.ljust 12 "José" = "José        ".
Proof. vm_compute. repeat split. Qed.

Example center_title :
  Fmt.center 56 "  AVOXI BILLING ANALYSIS - COMPREHENSIVE REPORT  "
  = "     AVOXI BILLING ANALYSIS - COMPREHENSIVE REPORT      ".
Proof. vm_compute. reflexivity. Qed.

(** ** The reference sort meets the [sort_values] contract *)

Section InsertionSort.
Context {A : Type} (key : A -> Q).

Let desc (a b : A) : Prop := (key b <= key a)%Q.

Lemma insert_desc_perm (x : A) (l : list A) :
  Permutation (insert_desc key x l) (x :: l).
Proof.
  induction l as [|y l IH]; simpl.
  - apply Permutation_refl.
  - destruct (Qle_bool (key y) (key x)).
    + apply Permutation_refl.
    + eapply perm_trans; [apply perm_skip, IH | apply perm_swap].
Qed.

Lemma isort_desc_perm (l : list A) : Permutation (isort_desc key l) l.
Proof.
  induction l as [|x l IH]; simpl.
  - constructor.
  - eapply perm_trans; [apply insert_desc_perm | apply perm_skip, IH].
Qed.

Lemma insert_desc_sorted (x : A) (l : list A) :
  StronglySorted desc l -> StronglySorted desc (insert_desc key x l).
Proof.
  induction 1 as [|y l Hl IH Hy]; simpl.
  - repeat constructor.
  - destruct (Qle_bool (key y) (key x)) eqn:E.
    + apply Qle_bool_iff in E.
      constructor; [constructor; assumption|].
      constructor; [exact E|].
      eapply Forall_impl; [exact Hy|].
      intros z Hz. unfold desc in *. eapply Qle_trans; eassumption.
    + constructor; [exact IH|].
      assert (Hxy : desc y x).
      { unfold desc. destruct (Qlt_le_dec (key x) (key y)) as [H|H].
        - apply Qlt_le_weak, H.
        - apply Qle_bool_iff in H. congruence. }
      eapply Permutation_Forall.
      * apply Permutation_sym, insert_desc_perm.
      * constructor; assumption.
Qed.

Lemma isort_desc_sorted (l : list A) : StronglySorted desc (isort_desc key l).
Proof.
  induction l as [|x l IH]; simpl.
  - constructor.
  - apply insert_desc_sorted, IH.
Qed.
End InsertionSort.

Lemma insertion_pandas_contract : sort_values_contract insertion_pandas.
Proof.
  split; intros A key l; [apply isort_desc_perm | apply isort_desc_sorted].
Qed.

Lemma reversing_pandas_contract : sort_values_contract reversing_pandas.
Proof.
  split; intros A key l; simpl.
  - eapply perm_trans; [apply isort_desc_perm | apply Permutation_sym, Permutation_rev].
  - apply isort_desc_sorted.
Qed.



(** ** Running the monad *)

Lemma bind_ok {A B} (m : M A) (f : A -> M B) s a s' :
  m s = (inr a, s') -> bind m f s = f a s'.
Proof. intros E. unfold bind. rewrite E. reflexivity. Qed.

Lemma bind_err {A B} (m : M A) (f : A -> M B) s e s' :
  m s = (inl e, s') -> bind m f s = (inl e, s').
Proof. intros E. unfold bind. rewrite E. reflexivity. Qed.

Lemma bind_inv {A B} (m : M A) (f : A -> M B) s b s2 :
  bind m f s = (inr b, s2) ->
  exists a s1, m s = (inr a, s1) /\ f a s1 = (inr b, s2).
Proof.
  unfold bind. destruct (m s) as [[e|a] s1]; intros E.
  - discriminate.
  - exists a, s1. split; [reflexivity | exact E].
Qed.

Lemma out_nil s : out s [] = s.
Proof. destruct s. unfold out. simpl. rewrite app_nil_r. reflexivity. Qed.

Lemma out_out s a b : out (out s a) b = out s (a ++ b).
Proof. unfold out. simpl. rewrite <- app_assoc. reflexivity. Qed.

Lemma print_out text s : print text s = (inr tt, out s [text]).
Proof. reflexivity. Qed.

Lemma for_each_print lines s : for_each lines print s = (inr tt, out s lines).
Proof.
  revert s. induction lines as [|x lines IH]; intros s; simpl.
  - rewrite out_nil. reflexivity.
  - erewrite bind_ok by apply print_out. rewrite IH, out_out. reflexivity.
Qed.

Lemma for_each_print_if {A} (p : A -> bool) (line : A -> string) rows s :
  for_each rows (fun row => if p row then print (line row) else ret tt) s
  = (inr tt, out s (map line (List.filter p rows))).
Proof.
  revert s. induction rows as [|x rows IH]; intros s; simpl.
  - rewrite out_nil. reflexivity.
  - destruct (p x); simpl.
    + erewrite bind_ok by apply print_out. rewrite IH, out_out. reflexivity.
    + erewrite bind_ok by reflexivity. apply IH.
Qed.

Lemma for_each_print_map {A} (line : A -> string) rows s :
  for_each rows (fun row => print (line row)) s = (inr tt, out s (map line rows)).
Proof.
  revert s. induction rows as [|x rows IH]; intros s; simpl.
  - rewrite out_nil. reflexivity.
  - erewrite bind_ok by apply print_out. rewrite IH, out_out. reflexivity.
Qed.

Lemma get_sheet_some name t s :
  data s !! name = Some t -> get_sheet name s = (inr t, s).
Proof. intros E. unfold get_sheet. rewrite E. reflexivity. Qed.

Lemma get_sheet_none name s :
  data s !! name = None -> get_sheet name s = (inl (KeyError name), s).
Proof. intros E. unfold get_sheet. rewrite E. reflexivity. Qed.

Lemma lookup_metric_first rows m r rest s :
  matching m rows = r :: rest -> lookup_metric rows m s = (inr (Value r), s).
Proof. unfold matching, lookup_metric. intros E. rewrite E. reflexivity. Qed.

Lemma lookup_metric_none rows m s :
  matching m rows = [] -> lookup_metric rows m s = (inl IndexError, s).
Proof. unfold matching, lookup_metric. intros E. rewrite E. reflexivity. Qed.

(** One step of a run whose head is known to return. *)
Ltac step_print := erewrite bind_ok by (apply print_out).

Lemma generate_summary_report_ok `{Floats} s rows r1 r2 r3 r4 r5 t1 t2 t3 t4 t5 :
  data s !! "Summary" = Some (Summary_sheet rows) ->
  matching "Total Revenue" rows = r1 :: t1 ->
  matching "Total Cost" rows = r2 :: t2 ->
  matching "Gross Margin % (Current)" rows = r3 :: t3 ->
  matching "Total Revenue (After Increase)" rows = r4 :: t4 ->
  matching "Gross Margin % (After Increase)" rows = r5 :: t5 ->
  generate_summary_report s =
    (inr {| current_revenue := Value r1;
            current_margin := Value r3;
            projected_margin := Value r5 |},
     out s (summary_heading ++
            summary_lines (Value r1) (Value r2) (Value r3) (Value r4) (Value r5))).
Proof.
  intros Hs H1 H2 H3 H4 H5. unfold generate_summary_report.
  do 3 step_print.
  erewrite bind_ok by (apply get_sheet_some; exact Hs).
  erewrite bind_ok by reflexivity.
  erewrite bind_ok by (eapply lookup_metric_first; exact H1).
  erewrite bind_ok by (eapply lookup_metric_first; exact H2).
  erewrite bind_ok by (eapply lookup_metric_first; exact H3).
  erewrite bind_ok by (eapply lookup_metric_first; exact H4).
  erewrite bind_ok by (eapply lookup_metric_first; exact H5).
  do 8 step_print.
  rewrite !out_out. reflexivity.
Qed.

(** ** The summary report on the sample figures *)

Lemma matching_perm m rows rows' :
  Permutation rows rows' -> Permutation (matching m rows) (matching m rows').
Proof.
  unfold matching. induction 1 as [| x l l' _ IH | x y l | l l' l'' _ IH1 _ IH2]; simpl.
  - constructor.
  - destruct (String.eqb (Metric x) m); [apply perm_skip|]; exact IH.
  - destruct (String.eqb (Metric x) m), (String.eqb (Metric y) m);
      try apply perm_swap; apply Permutation_refl.
  - eapply perm_trans; eassumption.
Qed.

Lemma matching_perm_single m rows rows' r :
  Permutation rows rows' -> matching m rows' = [r] -> matching m rows = [r].
Proof.
  intros P E. apply Permutation_length_1_inv.
  rewrite <- E. apply Permutation_sym, matching_perm, P.
Qed.

(** C7. For a Summary table holding Total Revenue = 1,000,000, Total Cost =
    600,000, Gross Margin % (Current) = 0.40, Total Revenue (After Increase) =
    1,100,000 and Gross Margin % (After Increase) = 0.4637, in any row order,
    [generate_summary_report] returns current_revenue = 1,000,000,
    current_margin = 0.40 and projected_margin = 0.4637, and its output has
    the lines for Revenue $1,000,000.00, Gross Margin 40.00% and Improvement
    +6.37% (projected minus current margin): both as printed, with the
    column padding of the source, and with the padding squeezed out. *)
Theorem summary_report_sample (s : St) (rows : list SummaryRow) :
  Permutation rows sample_summary ->
  data s !! "Summary" = Some (Summary_sheet rows) ->
  exists s',
    generate_summary_report s =
      (inr {| current_revenue := 1000000;
              current_margin := 40 # 100;
              projected_margin := 4637 # 10000 |}, s') /\
    (exists printed, stdout s' = (stdout s ++ printed)%list /\
       In "  Revenue:       $1,000,000.00" printed /\
       In "  Gross Margin:  40.00%" printed /\
       In "  Improvement:   +6.37%" printed /\
       In "Revenue: $1,000,000.00" (map squeeze printed) /\
       In "Gross Margin: 40.00%" (map squeeze printed) /\
       In "Improvement: +6.37%" (map squeeze printed)) /\
    Fmt.percent 2 ((4637 # 10000) - (40 # 100)) = "6.37%".
Proof.
  intros P Hs.
  assert (H1 : matching "Total Revenue" rows = [Build_SummaryRow "Total Revenue" 1000000])
    by (eapply matching_perm_single; [exact P | reflexivity]).
  assert (H2 : matching "Total Cost" rows = [Build_SummaryRow "Total Cost" 600000])
    by (eapply matching_perm_single; [exact P | reflexivity]).
  assert (H3 : matching "Gross Margin % (Current)" rows
               = [Build_SummaryRow "Gross Margin % (Current)" (40 # 100)])
    by (eapply matching_perm_single; [exact P | reflexivity]).
  assert (H4 : matching "Total Revenue (After Increase)" rows
               = [Build_SummaryRow "Total Revenue (After Increase)" 1100000])
    by (eapply matching_perm_single; [exact P | reflexivity]).
  assert (H5 : matching "Gross Margin % (After Increase)" rows
               = [Build_SummaryRow "Gross Margin % (After Increase)" (4637 # 10000)])
    by (eapply matching_perm_single; [exact P | reflexivity]).
  pose proof (generate_summary_report_ok s rows _ _ _ _ _ _ _ _ _ _ Hs H1 H2 H3 H4 H5) as E.
  simpl Value in E.
  eexists. split; [exact E|]. split.
  - eexists. split; [reflexivity|].
    repeat split; vm_compute; tauto.
  - vm_compute. reflexivity.
Qed.

Lemma summary_report_sample_witness :
  exists s',
    generate_summary_report loaded =
      (inr {| current_revenue := 1000000;
              current_margin := 40 # 100;
              projected_margin := 4637 # 10000 |}, s') /\
    (exists printed, stdout s' = (stdout loaded ++ printed)%list /\
       In "  Revenue:       $1,000,000.00" printed /\
       In "  Gross Margin:  40.00%" printed /\
       In "  Improvement:   +6.37%" printed /\
       In "Revenue: $1,000,000.00" (map squeeze printed) /\
       In "Gross Margin: 40.00%" (map squeeze printed) /\
       In "Improvement: +6.37%" (map squeeze printed)) /\
    Fmt.percent 2 ((4637 # 10000) - (40 # 100)) = "6.37%".
Proof.
  apply (summary_report_sample loaded sample_summary).
  - apply Permutation_refl.
  - vm_compute. reflexivity.
Defined.

(** ** Metric lookups *)

Lemma matching_nil_iff m rows :
  matching m rows = [] <-> (forall x, In x rows -> Metric x <> m).
Proof.
  unfold matching. induction rows as [|y rows IH]; simpl.
  - split; [intros _ x [] | reflexivity].
  - destruct (String.eqb_spec (Metric y) m) as [E|N].
    + split; [discriminate|]. intros H. exfalso. apply (H y); auto.
    + rewrite IH. split.
      * intros H x [<-|Hx]; auto.
      * intros H x Hx. apply H. auto.
Qed.

Lemma matching_cons_split m rows r rest :
  matching m rows = r :: rest ->
  exists pre post, rows = (pre ++ r :: post)%list /\ Metric r = m /\
                   (forall x, In x pre -> Metric x <> m).
Proof.
  unfold matching. induction rows as [|y rows IH]; simpl; [discriminate|].
  destruct (String.eqb_spec (Metric y) m) as [E|N]; intros H.
  - injection H as -> _. exists [], rows. repeat split; [exact E | intros x []].
  - destruct (IH H) as (pre & post & -> & Hm & Hpre).
    exists (y :: pre), post. repeat split; [exact Hm|].
    intros x [<-|Hx]; auto.
Qed.

Lemma matching_in m rows x :
  In x (matching m rows) -> exists y, In y rows /\ Metric y = m.
Proof.
  unfold matching. rewrite filter_In. intros [Hx E].
  exists x. split; [exact Hx | apply String.eqb_eq, E].
Qed.

Lemma generate_summary_report_cases `{Floats} s rows :
  data s !! "Summary" = Some (Summary_sheet rows) ->
  (exists res s', generate_summary_report s = (inr res, s') /\
                  Forall (fun m => matching m rows <> []) reported_metrics) \/
  (exists m s', In m reported_metrics /\ matching m rows = [] /\
                generate_summary_report s = (inl IndexError, s')).
Proof.
  intros Hs.
  destruct (matching "Total Revenue" rows) as [|r1 t1] eqn:H1;
    [| destruct (matching "Total Cost" rows) as [|r2 t2] eqn:H2;
    [| destruct (matching "Gross Margin % (Current)" rows) as [|r3 t3] eqn:H3;
    [| destruct (matching "Total Revenue (After Increase)" rows) as [|r4 t4] eqn:H4;
    [| destruct (matching "Gross Margin % (After Increase)" rows) as [|r5 t5] eqn:H5]]]].
  all: try (left; do 2 eexists; split;
            [ eapply generate_summary_report_ok; eassumption
            | unfold reported_metrics; repeat constructor; congruence ]).
  all: right; eexists; eexists; split; [|split]; cycle 1;
    [ eassumption
    | unfold generate_summary_report; do 3 step_print;
      erewrite bind_ok by (apply get_sheet_some; exact Hs);
      erewrite bind_ok by reflexivity;
      repeat (erewrite bind_ok by (eapply lookup_metric_first; eassumption));
      erewrite bind_err by (eapply lookup_metric_none; eassumption);
      reflexivity
    | unfold reported_metrics; simpl; tauto ].
Qed.

(** C2, as stated, fails: with two rows whose Metric is Total Revenue the
    lookup matches more than one row and the report still returns a value
    (the first row's). *)
Lemma summary_lookup_two_rows_returns :
  length (matching "Total Revenue" duplicated_summary) = 2%nat /\
  fst (generate_summary_report duplicated_state) =
    inr {| current_revenue := 1;
           current_margin := 40 # 100;
           projected_margin := 4637 # 10000 |}.
Proof. split; vm_compute; reflexivity. Qed.

Lemma find_matching m rows :
  List.find (fun r => String.eqb (Metric r) m) rows = List.hd_error (matching m rows).
Proof.
  unfold matching. induction rows as [|y rows IH]; simpl; [reflexivity|].
  destruct (String.eqb (Metric y) m); [reflexivity | exact IH].
Qed.

Lemma generate_summary_report_index_error `{Floats} s rows m :
  data s !! "Summary" = Some (Summary_sheet rows) ->
  In m reported_metrics ->
  matching m rows = [] ->
  generate_summary_report s = (inl IndexError, out s summary_heading).
Proof.
  intros Hs Hin Hnone.
  unfold generate_summary_report. do 3 step_print.
  erewrite bind_ok by (apply get_sheet_some; exact Hs).
  erewrite bind_ok by reflexivity.
  rewrite !out_out.
  destruct (matching "Total Revenue" rows) as [|r1 t1] eqn:H1;
    [erewrite bind_err by (eapply lookup_metric_none; exact H1); reflexivity|].
  erewrite bind_ok by (eapply lookup_metric_first; exact H1).
  destruct (matching "Total Cost" rows) as [|r2 t2] eqn:H2;
    [erewrite bind_err by (eapply lookup_metric_none; exact H2); reflexivity|].
  erewrite bind_ok by (eapply lookup_metric_first; exact H2).
  destruct (matching "Gross Margin % (Current)" rows) as [|r3 t3] eqn:H3;
    [erewrite bind_err by (eapply lookup_metric_none; exact H3); reflexivity|].
  erewrite bind_ok by (eapply lookup_metric_first; exact H3).
  destruct (matching "Total Revenue (After Increase)" rows) as [|r4 t4] eqn:H4;
    [erewrite bind_err by (eapply lookup_metric_none; exact H4); reflexivity|].
  erewrite bind_ok by (eapply lookup_metric_first; exact H4).
  destruct (matching "Gross Margin % (After Increase)" rows) as [|r5 t5] eqn:H5;
    [erewrite bind_err by (eapply lookup_metric_none; exact H5); reflexivity|].
  exfalso. unfold reported_metrics in Hin. simpl in Hin.
  destruct Hin as [<-|[<-|[<-|[<-|[<-|[]]]]]]; congruence.
Qed.

(** What the summary report does, by the first row of each metric. *)
Lemma generate_summary_report_first_rows `{Floats} s rows :
  data s !! "Summary" = Some (Summary_sheet rows) ->
  generate_summary_report s =
    match first_row "Total Revenue" rows,
          first_row "Total Cost" rows,
          first_row "Gross Margin % (Current)" rows,
          first_row "Total Revenue (After Increase)" rows,
          first_row "Gross Margin % (After Increase)" rows with
    | Some r1, Some r2, Some r3, Some r4, Some r5 =>
        (inr {| current_revenue := Value r1;
                current_margin := Value r3;
                projected_margin := Value r5 |},
         out s (summary_heading ++
                summary_lines (Value r1) (Value r2) (Value r3) (Value r4) (Value r5)))
    | _, _, _, _, _ => (inl IndexError, out s summary_heading)
    end.
Proof.
  intros Hs. unfold first_row. rewrite !find_matching.
  destruct (matching "Total Revenue" rows) as [|r1 t1] eqn:H1;
    [simpl; apply (generate_summary_report_index_error s rows "Total Revenue" Hs);
       [unfold reported_metrics; simpl; tauto | exact H1]|].
  destruct (matching "Total Cost" rows) as [|r2 t2] eqn:H2;
    [simpl; apply (generate_summary_report_index_error s rows "Total Cost" Hs);
       [unfold reported_metrics; simpl; tauto | exact H2]|].
  destruct (matching "Gross Margin % (Current)" rows) as [|r3 t3] eqn:H3;
    [simpl; apply (generate_summary_report_index_error s rows "Gross Margin % (Current)" Hs);
       [unfold reported_metrics; simpl; tauto | exact H3]|].
  destruct (matching "Total Revenue (After Increase)" rows) as [|r4 t4] eqn:H4;
    [simpl; apply (generate_summary_report_index_error s rows
                     "Total Revenue (After Increase)" Hs);
       [unfold reported_metrics; simpl; tauto | exact H4]|].
  destruct (matching "Gross Margin % (After Increase)" rows) as [|r5 t5] eqn:H5;
    [simpl; apply (generate_summary_report_index_error s rows
                     "Gross Margin % (After Increase)" Hs);
       [unfold reported_metrics; simpl; tauto | exact H5]|].
  simpl. eapply generate_summary_report_ok; eassumption.
Qed.

(** C2, amended. Each metric lookup of the summary reporter returns the Value
    of the first row of the Summary table whose Metric equals the name, and
    fails (IndexError) exactly when no row has that Metric; rows after the
    first match are not looked at.  When each of the five metrics has a row,
    the reporter returns the Values of the first rows of Total Revenue, Gross
    Margin % (Current) and Gross Margin % (After Increase), and the figures it
    prints are those of the first rows of the five metrics; when a metric has
    no row it fails with that error, having printed its heading only. *)
Theorem summary_lookup_first_row `{Floats} (s : St) (rows : list SummaryRow) :
  data s !! "Summary" = Some (Summary_sheet rows) ->
  let first (m : string) := List.find (fun r => String.eqb (Metric r) m) rows in
  (forall m,
     (exists pre r post,
        rows = (pre ++ r :: post)%list /\ Metric r = m /\
        (forall x, In x pre -> Metric x <> m) /\
        first m = Some r /\
        lookup_metric rows m s = (inr (Value r), s)) \/
     ((forall x, In x rows -> Metric x <> m) /\
      first m = None /\
      lookup_metric rows m s = (inl IndexError, s))) /\
  generate_summary_report s =
    match first "Total Revenue", first "Total Cost",
          first "Gross Margin % (Current)",
          first "Total Revenue (After Increase)",
          first "Gross Margin % (After Increase)" with
    | Some r1, Some r2, Some r3, Some r4, Some r5 =>
        (inr {| current_revenue := Value r1;
                current_margin := Value r3;
                projected_margin := Value r5 |},
         out s [ nl +:+ rule; "EXECUTIVE SUMMARY"; rule;
                 nl +:+ "Current Performance:";
                 "  Revenue:       $" +:+ format_fixed true 2 (Fin (Value r1));
                 "  Cost:          $" +:+ format_fixed true 2 (Fin (Value r2));
                 "  Gross Margin:  " +:+ format_percent 2 (Fin (Value r3));
                 nl +:+ "Projected Performance (Mobile +7%, Landline +20%):";
                 "  Revenue:       $" +:+ format_fixed true 2 (Fin (Value r4));
                 "  Gross Margin:  " +:+ format_percent 2 (Fin (Value r5));
                 "  Improvement:   +" +:+
                   format_percent 2 (float_sub (Value r5) (Value r3)) ])
    | _, _, _, _, _ =>
        (inl IndexError, out s [ nl +:+ rule; "EXECUTIVE SUMMARY"; rule ])
    end /\
  ((forall m, In m reported_metrics -> exists x, In x rows /\ Metric x = m) ->
   exists res s', generate_summary_report s = (inr res, s')) /\
  ((exists m, In m reported_metrics /\ forall x, In x rows -> Metric x <> m) ->
   exists s', generate_summary_report s = (inl IndexError, s')).
Proof.
  intros Hs first. split; [|split; [|split]].
  - intros m. unfold first. rewrite find_matching.
    destruct (matching m rows) as [|r rest] eqn:E.
    + right. split; [apply matching_nil_iff, E|].
      split; [reflexivity | apply lookup_metric_none, E].
    + left. destruct (matching_cons_split _ _ _ _ E) as (pre & post & Hr & Hm & Hpre).
      exists pre, r, post. repeat split; try assumption.
      eapply lookup_metric_first, E.
  - exact (generate_summary_report_first_rows s rows Hs).
  - intros Hall.
    destruct (generate_summary_report_cases s rows Hs)
      as [(res & s' & E & _) | (m & s' & Hin & Hnil & _)].
    + eauto.
    + exfalso. destruct (Hall m Hin) as (x & Hx & Hm).
      rewrite matching_nil_iff in Hnil. exact (Hnil x Hx Hm).
  - intros (m & Hin & Hnone).
    destruct (generate_summary_report_cases s rows Hs)
      as [(res & s' & _ & Hall) | (m' & s' & _ & _ & E)].
    + exfalso. rewrite List.Forall_forall in Hall.
      apply (Hall m Hin). apply matching_nil_iff, Hnone.
    + eauto.
Qed.

Lemma summary_lookup_first_row_witness :
  lookup_metric duplicated_summary "Total Revenue" duplicated_state
    = (inr 1%Q, duplicated_state) /\
  generate_summary_report duplicated_state =
    (inr {| current_revenue := 1;
            current_margin := 40 # 100;
            projected_margin := 4637 # 10000 |},
     out duplicated_state
       [ nl +:+ rule; "EXECUTIVE SUMMARY"; rule;
         nl +:+ "Current Performance:";
         "  Revenue:       $1.00";
         "  Cost:          $600,000.00";
         "  Gross Margin:  40.00%";
         nl +:+ "Projected Performance (Mobile +7%, Landline +20%):";
         "  Revenue:       $1,100,000.00";
         "  Gross Margin:  46.37%";
         "  Improvement:   +6.37%" ]).
Proof.
  destruct (@summary_lookup_first_row exact_floats duplicated_state duplicated_summary)
    as (_ & Hrep & _).
  - vm_compute. reflexivity.
  - split.
    + reflexivity.
    + rewrite Hrep. vm_compute. reflexivity.
Defined.

(** ** The vendor report *)

Lemma analyze_vendor_efficiency_ok `{Floats} s vendors :
  data s !! "Vendor Costs" = Some (Vendors_sheet vendors) ->
  analyze_vendor_efficiency s =
    (inr (Vendors_sheet vendors),
     out s (vendor_heading ++ map (vendor_line (total_cost_sum vendors)) vendors)).
Proof.
  intros Hs. unfold analyze_vendor_efficiency.
  erewrite bind_ok by (apply get_sheet_some; exact Hs).
  erewrite bind_ok by reflexivity.
  do 3 step_print.
  erewrite bind_ok by apply for_each_print_map.
  rewrite !out_out. reflexivity.
Qed.

(** C10. On a Vendor Costs table with zero rows [analyze_vendor_efficiency]
    completes without error and prints the heading only, no per-vendor line:
    the total is zero, and no share is computed because there is no row. *)
Theorem vendor_efficiency_empty_table (s : St) :
  data s !! "Vendor Costs" = Some (Vendors_sheet []) ->
  analyze_vendor_efficiency s = (inr (Vendors_sheet []), out s vendor_heading) /\
  total_cost_sum [] = 0%Q /\
  map (vendor_pct (total_cost_sum [])) [] = [].
Proof.
  intros Hs. split; [|split; reflexivity].
  rewrite (analyze_vendor_efficiency_ok s [] Hs). simpl map.
  rewrite app_nil_r. reflexivity.
Qed.

Lemma vendor_efficiency_empty_table_witness :
  let s := mkSt "" {["Vendor Costs" := Vendors_sheet []]} [] ∅ ∅ in
  analyze_vendor_efficiency s = (inr (Vendors_sheet []), out s vendor_heading) /\
  total_cost_sum [] = 0%Q /\
  map (vendor_pct (total_cost_sum [])) [] = [].
Proof.
  intros s. apply (vendor_efficiency_empty_table s). vm_compute. reflexivity.
Defined.

Lemma fold_left_Qplus (l : list Q) (a : Q) :
  (fold_left Qplus l a == a + Qsum l)%Q.
Proof.
  revert a. induction l as [|x l IH]; intros a; simpl.
  - ring.
  - rewrite IH. ring.
Qed.

Lemma Qsum_shares (T : Q) (costs : list Q) :
  (Qsum (map (fun c => c / T * 100) costs) == Qsum costs / T * 100)%Q.
Proof.
  induction costs as [|c costs IH]; simpl.
  - unfold Qdiv. ring.
  - rewrite IH. unfold Qdiv. ring.
Qed.

Lemma exact_floats_exact : exact_arithmetic exact_floats.
Proof.
  repeat split.
  - intros l. simpl. rewrite fold_left_Qplus. fold (Qsum l). ring.
  - intros a b NZ. exists (a / b)%Q. split; [|reflexivity].
    simpl. unfold np_div. destruct (Qeq_bool b 0) eqn:E; [|reflexivity].
    apply Qeq_bool_eq in E. contradiction.
  - intros q c. exists (q * c)%Q. split; reflexivity.
  - intros a b. exists (a - b)%Q. split; reflexivity.
Qed.

Lemma exact_floats_numpy_division : numpy_zero_division exact_floats.
Proof.
  split; [|split; [|split]].
  - intros a b Hb. simpl. unfold np_div.
    apply Qeq_bool_iff in Hb. rewrite Hb. reflexivity.
  - intros []; split; reflexivity.
  - reflexivity.
  - intros []; reflexivity.
Qed.

(** The shares of the rows of a table, under arithmetic without rounding. *)
Lemma exact_shares `{F : Floats} (T : Q) (rows : list VendorRow) :
  exact_arithmetic F -> ~ (T == 0)%Q ->
  exists shares : list Q,
    map (vendor_pct T) rows = map Fin shares /\
    Forall2 (fun row share => (share == v_TotalCost row / T * 100)%Q) rows shares.
Proof.
  intros (_ & Hdiv & Hmul & _) NZ.
  induction rows as [|row rows (shares & Hm & Hf)].
  - exists []. split; [reflexivity | constructor].
  - destruct (Hdiv (v_TotalCost row) T NZ) as (q1 & E1 & Q1).
    destruct (Hmul q1 100%Q) as (q2 & E2 & Q2).
    exists (q2 :: shares). split.
    + simpl. rewrite Hm. f_equal. unfold vendor_pct. rewrite E1. exact E2.
    + constructor; [|exact Hf]. rewrite Q2, Q1. reflexivity.
Qed.

Lemma Qsum_Forall2 (xs : list VendorRow) (f : VendorRow -> Q) (ys : list Q) :
  Forall2 (fun x y => (y == f x)%Q) xs ys -> (Qsum ys == Qsum (map f xs))%Q.
Proof.
  induction 1 as [|x y xs ys E _ IH]; simpl; [reflexivity|].
  rewrite E, IH. reflexivity.
Qed.

Lemma vendor_lines_of_shares `{Floats} (T : Q) (rows : list VendorRow) (shares : list Q) :
  map (vendor_pct T) rows = map Fin shares ->
  map (vendor_line T) rows =
  map (fun '(row, share) => expected_vendor_line row (Fin share)) (combine rows shares).
Proof.
  revert shares. induction rows as [|row rows IH]; intros [|share shares] E;
    simpl in *; try discriminate; [reflexivity|].
  injection E as E1 E2. f_equal; [|apply IH, E2].
  unfold vendor_line, expected_vendor_line. rewrite E1. reflexivity.
Qed.

(** What the vendor report does under arithmetic without rounding, when the
    total is not zero. *)
Lemma vendor_report_exact `{F : Floats} (s : St) (vendors : list VendorRow) :
  exact_arithmetic F ->
  data s !! "Vendor Costs" = Some (Vendors_sheet vendors) ->
  ~ (Qsum (map v_TotalCost vendors) == 0)%Q ->
  exists shares : list Q,
    analyze_vendor_efficiency s =
      (inr (Vendors_sheet vendors),
       out s (vendor_heading ++
              map (fun '(row, share) => expected_vendor_line row (Fin share))
                  (combine vendors shares))) /\
    map (vendor_pct (total_cost_sum vendors)) vendors = map Fin shares /\
    length shares = length vendors /\
    Forall2 (fun row share =>
               (share == v_TotalCost row / Qsum (map v_TotalCost vendors) * 100)%Q)
            vendors shares.
Proof.
  intros HF Hs NZ.
  assert (HT : (total_cost_sum vendors == Qsum (map v_TotalCost vendors))%Q)
    by (destruct HF as (Hsum & _); apply Hsum).
  assert (NZ' : ~ (total_cost_sum vendors == 0)%Q) by (rewrite HT; exact NZ).
  destruct (exact_shares (total_cost_sum vendors) vendors HF NZ') as (shares & Hm & Hf).
  exists shares. split; [|split; [exact Hm | split]].
  - rewrite (analyze_vendor_efficiency_ok s vendors Hs).
    rewrite (vendor_lines_of_shares _ _ _ Hm). reflexivity.
  - apply (f_equal (@length _)) in Hm. rewrite !length_map in Hm. symmetry. exact Hm.
  - eapply Forall2_impl; [exact Hf|]. intros row share E. simpl in E.
    rewrite E, HT. reflexivity.
Qed.

(** C5. Over exact arithmetic, for every Vendor Costs table whose total cost
    is positive (so it has at least one row), the vendor report prints, after
    its heading, one line per vendor showing the vendor's cost and its share;
    each share is the vendor's Total Cost divided by the grand total, times
    100, and the shares sum to exactly 100. *)
Theorem vendor_shares_sum_to_100 `{F : Floats} (s : St) (vendors : list VendorRow) :
  exact_arithmetic F ->
  data s !! "Vendor Costs" = Some (Vendors_sheet vendors) ->
  (0 < Qsum (map v_TotalCost vendors))%Q ->
  vendors <> [] /\
  exists shares : list Q,
    analyze_vendor_efficiency s =
      (inr (Vendors_sheet vendors),
       out s ([ nl +:+ rule; "VENDOR COST ANALYSIS"; rule ] ++
              map (fun '(row, share) =>
                     Fmt.ljust 12 (v_Vendor row) +:+ " | Cost: $" +:+
                     Fmt.rjust 10 (format_fixed true 2 (Fin (v_TotalCost row))) +:+
                     " | Share: " +:+
                     Fmt.rjust 5 (format_fixed false 1 (Fin share)) +:+ "%")
                  (combine vendors shares))) /\
    map (vendor_pct (total_cost_sum vendors)) vendors = map Fin shares /\
    length shares = length vendors /\
    Forall2 (fun row share =>
               (share == v_TotalCost row / Qsum (map v_TotalCost vendors) * 100)%Q)
            vendors shares /\
    (Qsum shares == 100)%Q.
Proof.
  intros HF Hs Hpos.
  assert (NZ : ~ (Qsum (map v_TotalCost vendors) == 0)%Q).
  { intros E. rewrite E in Hpos. exact (Qlt_irrefl _ Hpos). }
  split.
  - intros ->. apply NZ. reflexivity.
  - destruct (vendor_report_exact s vendors HF Hs NZ) as (shares & E & Hm & Hl & Hf).
    exists shares. repeat split; try assumption.
    rewrite (Qsum_Forall2 vendors
               (fun row => v_TotalCost row / Qsum (map v_TotalCost vendors) * 100)%Q
               shares Hf).
    rewrite <- (map_map v_TotalCost
                  (fun c => c / Qsum (map v_TotalCost vendors) * 100)%Q).
    rewrite Qsum_shares. field. exact NZ.
Qed.

Lemma vendor_shares_sum_to_100_witness :
  sample_vendors <> [] /\
  exists shares : list Q,
    analyze_vendor_efficiency loaded =
      (inr (Vendors_sheet sample_vendors),
       out loaded ([ nl +:+ rule; "VENDOR COST ANALYSIS"; rule ] ++
              map (fun '(row, share) =>
                     Fmt.ljust 12 (v_Vendor row) +:+ " | Cost: $" +:+
                     Fmt.rjust 10 (format_fixed true 2 (Fin (v_TotalCost row))) +:+
                     " | Share: " +:+
                     Fmt.rjust 5 (format_fixed false 1 (Fin share)) +:+ "%")
                  (combine sample_vendors shares))) /\
    map (vendor_pct (total_cost_sum sample_vendors)) sample_vendors = map Fin shares /\
    length shares = length sample_vendors /\
    Forall2 (fun row share =>
               (share == v_TotalCost row / Qsum (map v_TotalCost sample_vendors) * 100)%Q)
            sample_vendors shares /\
    (Qsum shares == 100)%Q.
Proof.
  apply (@vendor_shares_sum_to_100 exact_floats loaded sample_vendors).
  - apply exact_floats_exact.
  - vm_compute. reflexivity.
  - reflexivity.
Defined.

(** ** The optimization report *)

Lemma below_threshold_iff (gm : Q) :
  below_threshold gm = true <-> (gm < 35 # 100)%Q.
Proof.
  unfold below_threshold. rewrite negb_true_iff. split.
  - intros E. apply Qnot_le_lt. intros H. apply Qle_bool_iff in H. congruence.
  - intros H. destruct (Qle_bool (35 # 100) gm) eqn:E; [|reflexivity].
    apply Qle_bool_iff in E. exfalso. exact (Qlt_not_le _ _ H E).
Qed.

Lemma below_threshold_decides (gm : Q) : below_threshold gm = is_below_35 gm.
Proof.
  unfold is_below_35. destruct (Qlt_le_dec gm (35 # 100)) as [L|L].
  - apply below_threshold_iff, L.
  - unfold below_threshold. apply negb_false_iff, Qle_bool_iff, L.
Qed.

Lemma is_below_35_iff (gm : Q) : is_below_35 gm = true <-> (gm < 35 # 100)%Q.
Proof. rewrite <- below_threshold_decides. apply below_threshold_iff. Qed.

Lemma identify_optimization_opportunities_ok `{Floats} s clients countries :
  data s !! "Low Margin Clients" = Some (LowClients_sheet clients) ->
  data s !! "Low Margin Countries" = Some (Countries_sheet countries) ->
  identify_optimization_opportunities s =
    (inr (LowClients_sheet clients, Countries_sheet countries),
     out s (optimization_lines clients countries)).
Proof.
  intros Hc Hk. unfold identify_optimization_opportunities.
  erewrite bind_ok by (apply get_sheet_some; exact Hc).
  erewrite bind_ok by (apply get_sheet_some; exact Hk).
  do 4 step_print.
  erewrite bind_ok by reflexivity.
  erewrite bind_ok by apply for_each_print_if.
  step_print.
  erewrite bind_ok by reflexivity.
  erewrite bind_ok by apply for_each_print_if.
  rewrite !out_out. unfold ret, optimization_lines, optimization_heading.
  rewrite (filter_ext (fun r => below_threshold (lc_GM r))
             (fun r => is_below_35 (lc_GM r)))
    by (intros r; apply below_threshold_decides).
  rewrite (filter_ext (fun r => below_threshold (k_GM r))
             (fun r => is_below_35 (k_GM r)))
    by (intros r; apply below_threshold_decides).
  reflexivity.
Qed.

(** C4. For every Low Margin Clients table and Low Margin Countries table,
    and whatever way numbers are formatted, [identify_optimization_opportunities]
    prints its heading and then, under each of the two sub-headings and in
    table order, one line (name, margin as a percentage, revenue) for exactly
    the rows whose GM% is strictly less than 0.35; a row with GM% equal to
    0.35 is not among them.  It returns the two tables as they are stored,
    unfiltered. *)
Theorem optimization_prints_below_threshold `{Floats}
  (s : St) (clients : list LowClientRow) (countries : list CountryRow) :
  data s !! "Low Margin Clients" = Some (LowClients_sheet clients) ->
  data s !! "Low Margin Countries" = Some (Countries_sheet countries) ->
  let shown_clients :=
    List.filter (fun r => if Qlt_le_dec (lc_GM r) (35 # 100) then true else false)
                clients in
  let shown_countries :=
    List.filter (fun r => if Qlt_le_dec (k_GM r) (35 # 100) then true else false)
                countries in
  identify_optimization_opportunities s =
    (inr (LowClients_sheet clients, Countries_sheet countries),
     out s ([ nl +:+ rule; "OPTIMIZATION OPPORTUNITIES"; rule ] ++
            [ nl +:+ "Low Margin Clients (< 35%):" ] ++
            map (fun r =>
                   "  " +:+ Fmt.ljust 12 (lc_Customer r) +:+ " | Margin: " +:+
                   Fmt.rjust 6 (format_percent 1 (Fin (lc_GM r))) +:+
                   " | Revenue: $" +:+
                   Fmt.rjust 8 (format_fixed true 2 (Fin (lc_Revenue r))))
                shown_clients ++
            [ nl +:+ "Low Margin Countries (< 35%):" ] ++
            map (fun r =>
                   "  " +:+ Fmt.ljust 15 (k_Country r) +:+ " | Margin: " +:+
                   Fmt.rjust 6 (format_percent 1 (Fin (k_GM r))) +:+
                   " | Revenue: $" +:+
                   Fmt.rjust 10 (format_fixed true 2 (Fin (k_Revenue r))))
                shown_countries)) /\
  (forall r, In r shown_clients <-> In r clients /\ (lc_GM r < 35 # 100)%Q) /\
  (forall r, In r shown_countries <-> In r countries /\ (k_GM r < 35 # 100)%Q) /\
  (forall r, (lc_GM r == 35 # 100)%Q -> ~ In r shown_clients) /\
  (forall r, (k_GM r == 35 # 100)%Q -> ~ In r shown_countries).
Proof.
  intros Hc Hk shown_clients shown_countries.
  assert (Hin1 : forall r, In r shown_clients <-> In r clients /\ (lc_GM r < 35 # 100)%Q).
  { intros r. unfold shown_clients. rewrite filter_In.
    rewrite <- is_below_35_iff. reflexivity. }
  assert (Hin2 : forall r, In r shown_countries <-> In r countries /\ (k_GM r < 35 # 100)%Q).
  { intros r. unfold shown_countries. rewrite filter_In.
    rewrite <- is_below_35_iff. reflexivity. }
  split; [|split; [exact Hin1 | split; [exact Hin2 | split]]].
  - rewrite (identify_optimization_opportunities_ok s clients countries Hc Hk).
    reflexivity.
  - intros r E Hr. apply Hin1 in Hr. destruct Hr as [_ Hlt].
    rewrite E in Hlt. exact (Qlt_irrefl _ Hlt).
  - intros r E Hr. apply Hin2 in Hr. destruct Hr as [_ Hlt].
    rewrite E in Hlt. exact (Qlt_irrefl _ Hlt).
Qed.

Lemma optimization_prints_below_threshold_witness :
  identify_optimization_opportunities loaded =
    (inr (LowClients_sheet sample_low_clients, Countries_sheet sample_countries),
     out loaded
       [ nl +:+ rule; "OPTIMIZATION OPPORTUNITIES"; rule;
         nl +:+ "Low Margin Clients (< 35%):";
         "  Client A     | Margin:  30.0% | Revenue: $1,200.00";
         "  Client D     | Margin:  35.0% | Revenue: $  800.00";
         nl +:+ "Low Margin Countries (< 35%):";
         "  Chile           | Margin:  28.0% | Revenue: $    900.00";
         "  Australia       | Margin:  33.0% | Revenue: $  1,500.00" ]) /\
  ~ In {| lc_Customer := "Client C"; lc_GM := 35 # 100; lc_Revenue := 2500 |}
       (List.filter (fun r => if Qlt_le_dec (lc_GM r) (35 # 100) then true else false)
                    sample_low_clients).
Proof.
  destruct (@optimization_prints_below_threshold exact_floats
              loaded sample_low_clients sample_countries)
    as (E & _ & _ & Hb & _).
  - vm_compute. reflexivity.
  - vm_compute. reflexivity.
  - split.
    + rewrite E. vm_compute. reflexivity.
    + apply Hb. reflexivity.
Defined.

(** ** Sorted lists *)

Section SortedByKey.
Context {A : Type} (key : A -> Q).

Let desc (a b : A) : Prop := (key b <= key a)%Q.
Let sdesc (a b : A) : Prop := (key b < key a)%Q.

Lemma sorted_app_inv (l1 l2 : list A) :
  StronglySorted desc (l1 ++ l2) ->
  StronglySorted desc l1 /\ StronglySorted desc l2 /\
  (forall a b, In a l1 -> In b l2 -> desc a b).
Proof.
  induction l1 as [|x l1 IH]; simpl; intros H.
  - repeat split; [constructor | exact H | intros a b []].
  - inversion H as [|? ? Hs Hx]; subst.
    destruct (IH Hs) as (S1 & S2 & C).
    rewrite List.Forall_forall in Hx.
    repeat split.
    + constructor; [exact S1|]. apply List.Forall_forall.
      intros y Hy. apply Hx, in_or_app. left. exact Hy.
    + exact S2.
    + intros a b [<-|Ha] Hb.
      * apply Hx, in_or_app. right. exact Hb.
      * apply C; assumption.
Qed.

(** A list sorted strictly has one sorted arrangement. *)
Lemma sorted_permutation_unique (l1 l2 : list A) :
  StronglySorted desc l1 -> StronglySorted sdesc l2 ->
  Permutation l1 l2 -> l1 = l2.
Proof.
  revert l2. induction l1 as [|a l1 IH]; intros l2 S1 S2 P.
  - apply Permutation_nil in P. congruence.
  - destruct l2 as [|b l2].
    + apply Permutation_sym, Permutation_nil in P. discriminate.
    + inversion S1 as [|? ? S1' F1]; subst.
      inversion S2 as [|? ? S2' F2]; subst.
      rewrite List.Forall_forall in F1, F2.
      assert (E : a = b).
      { assert (Ha : In a (b :: l2))
          by (eapply Permutation_in; [exact P | left; reflexivity]).
        assert (Hb : In b (a :: l1))
          by (eapply Permutation_in; [apply Permutation_sym, P | left; reflexivity]).
        destruct Ha as [Ha|Ha]; [congruence|].
        destruct Hb as [Hb|Hb]; [congruence|].
        exfalso. specialize (F2 a Ha). specialize (F1 b Hb).
        unfold desc, sdesc in *. exact (Qlt_not_le _ _ F2 F1). }
      subst b. f_equal. apply IH; try assumption.
      eapply Permutation_cons_inv. exact P.
Qed.
End SortedByKey.

(** ** The top-clients report *)

Lemma analyze_top_clients_ok `{Pandas} `{Floats} s rows n :
  data s !! "Client Breakdown" = Some (Clients_sheet rows) ->
  analyze_top_clients n s =
    (inr (head n (sort_values_desc c_Revenue rows)),
     out s (top_heading n ++
            map client_line (head n (sort_values_desc c_Revenue rows)))).
Proof.
  intros Hs. unfold analyze_top_clients.
  erewrite bind_ok by (apply get_sheet_some; exact Hs).
  erewrite bind_ok by reflexivity.
  do 3 step_print.
  erewrite bind_ok by apply for_each_print_map.
  rewrite !out_out. reflexivity.
Qed.

Lemma head_nonneg {A} (n : Z) (l : list A) :
  (0 <= n)%Z -> head n l = firstn (Z.to_nat n) l.
Proof. intros H. unfold head. apply Z.leb_le in H. rewrite H. reflexivity. Qed.

(** C3. For every Client Breakdown table and every count N (N >= 0), with any
    sort that meets the [sort_values] contract, [analyze_top_clients] returns exactly min(N, number of rows) rows, sorted
    by Revenue non-increasing; they are rows of the table and no row left out
    has a larger Revenue.  For three rows of pairwise different Revenue and
    N = 2 it returns the two rows of highest Revenue, highest first, whatever
    the order the rows are stored in. *)
Theorem top_clients_sorted_prefix (P : Pandas) `{Floats} (s : St) (rows : list ClientRow) (n : Z) :
  sort_values_contract P ->
  data s !! "Client Breakdown" = Some (Clients_sheet rows) ->
  (0 <= n)%Z ->
  exists top s',
    analyze_top_clients n s = (inr top, s') /\
    length top = Nat.min (Z.to_nat n) (length rows) /\
    StronglySorted (fun a b => c_Revenue b <= c_Revenue a)%Q top /\
    (exists rest, Permutation (top ++ rest) rows /\
       forall a b, In a top -> In b rest -> (c_Revenue b <= c_Revenue a)%Q) /\
    (forall r1 r2 r3,
       Permutation rows [r1; r2; r3] ->
       (c_Revenue r3 < c_Revenue r2)%Q -> (c_Revenue r2 < c_Revenue r1)%Q ->
       n = 2%Z -> top = [r1; r2]).
Proof.
  intros [Hperm Hsorted] Hs Hn.
  pose proof (Hperm _ c_Revenue rows) as Pm.
  pose proof (Hsorted _ c_Revenue rows) as S.
  set (sorted := sort_values_desc c_Revenue rows) in *.
  exists (head n sorted). eexists.
  split; [apply analyze_top_clients_ok, Hs|].
  rewrite head_nonneg by exact Hn.
  assert (Hsplit : sorted = (firstn (Z.to_nat n) sorted ++ skipn (Z.to_nat n) sorted)%list)
    by (symmetry; apply firstn_skipn).
  rewrite Hsplit in S.
  destruct (sorted_app_inv c_Revenue _ _ S) as (S1 & _ & C).
  repeat split.
  - rewrite length_firstn. f_equal. apply Permutation_length, Pm.
  - exact S1.
  - exists (skipn (Z.to_nat n) sorted). split.
    + rewrite <- Hsplit. exact Pm.
    + exact C.
  - intros r1 r2 r3 P3 H32 H21 ->.
    assert (E : sorted = [r1; r2; r3]).
    { apply (sorted_permutation_unique c_Revenue).
      - apply Hsorted.
      - repeat constructor; try assumption.
        eapply Qlt_trans; eassumption.
      - eapply perm_trans; [exact Pm | exact P3]. }
    rewrite E. reflexivity.
Qed.

Lemma top_clients_sorted_prefix_witness :
  fst (@analyze_top_clients insertion_pandas exact_floats 2 loaded) =
    inr [ {| c_Customer := "Client B"; c_Revenue := 5000; c_GM := 45 # 100; c_Calls := 310 |};
          {| c_Customer := "Client C"; c_Revenue := 2500; c_GM := 35 # 100; c_Calls := 95 |} ].
Proof.
  destruct (@top_clients_sorted_prefix insertion_pandas exact_floats loaded sample_clients 2)
    as (top & s' & E & _ & _ & _ & H3).
  - apply insertion_pandas_contract.
  - vm_compute. reflexivity.
  - lia.
  - rewrite E. simpl. f_equal.
    apply (H3 _ _ {| c_Customer := "Client A"; c_Revenue := 1200;
                     c_GM := 30 # 100; c_Calls := 40 |}).
    + unfold sample_clients.
      exact (Permutation_cons_append [_; _] _).
    + reflexivity.
    + reflexivity.
    + reflexivity.
Defined.

Example head_negative : head (-1) [1; 2; 3]%nat = [1; 2]%nat.
Proof. reflexivity. Qed.

(** ** Operations that leave the table collection alone *)

Create HintDb frame.

Lemma keeps_ret {A} (a : A) : keeps_data (ret a).
Proof. intros s. split; reflexivity. Qed.

Lemma keeps_raise {A} (e : exn) : keeps_data (@raise A e).
Proof. intros s. split; reflexivity. Qed.

Lemma keeps_bind {A B} (m : M A) (f : A -> M B) :
  keeps_data m -> (forall a, keeps_data (f a)) -> keeps_data (bind m f).
Proof.
  intros Hm Hf s. unfold bind. specialize (Hm s).
  destruct (m s) as [[e|a] s1]; simpl in *.
  - exact Hm.
  - destruct (Hf a s1) as [E1 E2], Hm as [E3 E4]. split; congruence.
Qed.

Lemma keeps_print text : keeps_data (print text).
Proof. intros s. split; reflexivity. Qed.

Lemma keeps_get_sheet name : keeps_data (get_sheet name).
Proof. intros s. unfold get_sheet. destruct (data s !! name); split; reflexivity. Qed.

Lemma keeps_for_each {A} (l : list A) (body : A -> M unit) :
  (forall x, keeps_data (body x)) -> keeps_data (for_each l body).
Proof.
  intros Hb. induction l as [|x l IH]; simpl.
  - apply keeps_ret.
  - apply keeps_bind; [apply Hb | intros _; exact IH].
Qed.

Lemma keeps_if {A} (c : bool) (a b : M A) :
  keeps_data a -> keeps_data b -> keeps_data (if c then a else b).
Proof. destruct c; auto. Qed.

Lemma keeps_lookup_metric rows m : keeps_data (lookup_metric rows m).
Proof.
  unfold lookup_metric.
  destruct (List.filter _ rows); [apply keeps_raise | apply keeps_ret].
Qed.

Lemma keeps_mkdir p : keeps_data (mkdir_exist_ok p).
Proof.
  intros s. unfold mkdir_exist_ok.
  destruct (is_dir s p); [split; reflexivity|].
  destruct (files s !! p); [split; reflexivity|].
  destruct (is_dir s (dirname p)); split; reflexivity.
Qed.

Lemma keeps_write_file p f : keeps_data (write_file p f).
Proof.
  intros s. unfold write_file.
  destruct (is_dir s p); [split; reflexivity|].
  destruct (is_dir s (dirname p)); split; reflexivity.
Qed.

Lemma keeps_savefig `{Matplotlib} fig p : keeps_data (savefig fig p).
Proof.
  unfold savefig. destruct (render fig); [apply keeps_write_file | apply keeps_raise].
Qed.

Lemma keeps_summary_rows t : keeps_data (summary_rows t).
Proof. destruct t; first [apply keeps_ret | apply keeps_raise]. Qed.

Lemma keeps_client_rows t : keeps_data (client_rows t).
Proof. destruct t; first [apply keeps_ret | apply keeps_raise]. Qed.

Lemma keeps_vendor_rows t : keeps_data (vendor_rows t).
Proof. destruct t; first [apply keeps_ret | apply keeps_raise]. Qed.

Lemma keeps_low_client_rows t : keeps_data (low_client_rows t).
Proof. destruct t; first [apply keeps_ret | apply keeps_raise]. Qed.

Lemma keeps_low_country_rows t : keeps_data (low_country_rows t).
Proof. destruct t; first [apply keeps_ret | apply keeps_raise]. Qed.

Lemma keeps_country_rows t : keeps_data (country_rows t).
Proof. destruct t; first [apply keeps_ret | apply keeps_raise]. Qed.

Lemma keeps_carrier_rows t : keeps_data (carrier_rows t).
Proof. destruct t; first [apply keeps_ret | apply keeps_raise]. Qed.

#[local] Hint Resolve keeps_ret keeps_raise keeps_print keeps_get_sheet
  keeps_lookup_metric keeps_mkdir keeps_write_file keeps_savefig
  keeps_summary_rows keeps_client_rows keeps_vendor_rows keeps_low_client_rows
  keeps_low_country_rows keeps_country_rows keeps_carrier_rows : frame.

(** Walks down a sequence of binds, closing every step from the database. *)
Ltac frame :=
  repeat first
    [ apply keeps_bind; [|intros ?]
    | apply keeps_for_each; intros ?
    | apply keeps_if
    | solve [auto with frame]
    | progress cbv zeta ].

Lemma keeps_generate_summary_report `{Floats} : keeps_data generate_summary_report.
Proof. unfold generate_summary_report. frame. Qed.

Lemma keeps_analyze_top_clients `{Pandas} `{Floats} n : keeps_data (analyze_top_clients n).
Proof. unfold analyze_top_clients. frame. Qed.

Lemma keeps_analyze_vendor_efficiency `{Floats} : keeps_data analyze_vendor_efficiency.
Proof. unfold analyze_vendor_efficiency. frame. Qed.

Lemma keeps_identify_optimization_opportunities `{Floats} :
  keeps_data identify_optimization_opportunities.
Proof. unfold identify_optimization_opportunities. frame. Qed.

Lemma keeps_create_visualizations `{Pandas} `{Matplotlib} output_dir :
  keeps_data (create_visualizations output_dir).
Proof. unfold create_visualizations. frame. Qed.

#[local] Hint Resolve keeps_generate_summary_report keeps_analyze_top_clients
  keeps_analyze_vendor_efficiency keeps_identify_optimization_opportunities
  keeps_create_visualizations : frame.

Lemma keeps_run_full_analysis `{Pandas} `{Matplotlib} `{Floats} : keeps_data run_full_analysis.
Proof. unfold run_full_analysis. frame. Qed.

Lemma keeps_perform `{Pandas} `{Matplotlib} `{Floats} op : keeps_data (perform op).
Proof.
  pose proof keeps_run_full_analysis. destruct op; simpl; frame.
Qed.

(** ** Loading *)

Lemma read_excel_in xl name :
  In name (map fst xl) -> read_excel xl name <> None.
Proof.
  induction xl as [|[n t] xl IH]; simpl; [intros []|].
  intros H. destruct (String.eqb_spec n name) as [E|N]; [discriminate|].
  destruct H as [H|H]; [contradiction | exact (IH H)].
Qed.

Lemma read_excel_not_in xl name :
  ~ In name (map fst xl) -> read_excel xl name = None.
Proof.
  induction xl as [|[n t] xl IH]; simpl; [reflexivity|].
  intros H. destruct (String.eqb_spec n name) as [E|N].
  - exfalso. apply H. left. exact E.
  - apply IH. intros Hin. apply H. right. exact Hin.
Qed.

Lemma load_fold_other xl names d k :
  ~ In k names -> load_fold xl names d !! k = d !! k.
Proof.
  revert d. induction names as [|n names IH]; intros d Hk; simpl; [reflexivity|].
  rewrite IH by (intros H; apply Hk; right; exact H).
  destruct (read_excel xl n); [|reflexivity].
  apply lookup_insert_ne. intros ->. apply Hk. left. reflexivity.
Qed.

Lemma load_fold_loaded xl names d k :
  (forall n, In n names -> read_excel xl n <> None) ->
  In k names -> load_fold xl names d !! k = read_excel xl k.
Proof.
  revert d. induction names as [|n names IH]; intros d Hall Hk; [destruct Hk|].
  simpl. destruct (in_dec string_dec k names) as [Hin|Hout].
  - apply IH; [|exact Hin]. intros m Hm. apply Hall. right. exact Hm.
  - destruct Hk as [->|Hk]; [|contradiction].
    rewrite load_fold_other by exact Hout.
    destruct (read_excel xl k) as [t|] eqn:E.
    + apply lookup_insert_eq.
    + exfalso. apply (Hall k); [left; reflexivity | exact E].
Qed.

Lemma set_data_id s : set_data s (data s) = s.
Proof. destruct s. reflexivity. Qed.

Lemma load_loop xl names s :
  (forall n, In n names -> read_excel xl n <> None) ->
  for_each names (fun name =>
    match read_excel xl name with
    | Some t => set_sheet name t
    | None => raise (KeyError name)
    end) s
  = (inr tt, set_data s (load_fold xl names (data s))).
Proof.
  revert s. induction names as [|n names IH]; intros s Hall; simpl.
  - rewrite set_data_id. reflexivity.
  - destruct (read_excel xl n) as [t|] eqn:E.
    + erewrite bind_ok by reflexivity.
      rewrite IH by (intros m Hm; apply Hall; right; exact Hm).
      reflexivity.
    + exfalso. apply (Hall n); [left; reflexivity | exact E].
Qed.

Lemma init_loads path sheets s0 :
  files s0 !! path = Some (Xlsx sheets) ->
  exists s1,
    init path s0 = (inr tt, s1) /\
    filepath s1 = path /\
    forall name, data s1 !! name = read_excel sheets name.
Proof.
  intros Hf. unfold init, load_data.
  erewrite bind_ok by reflexivity.
  erewrite bind_ok
    by (unfold ExcelFile; cbn [files filepath]; rewrite Hf; reflexivity).
  erewrite bind_ok by (apply load_loop; intros n; apply read_excel_in).
  erewrite bind_ok by reflexivity.
  rewrite print_out. eexists. split; [reflexivity|]. split; [reflexivity|].
  intros name. cbn [data out set_data].
  destruct (in_dec string_dec name (map fst sheets)) as [Hin|Hout].
  - apply load_fold_loaded; [intros n; apply read_excel_in | exact Hin].
  - rewrite load_fold_other by exact Hout.
    rewrite read_excel_not_in by exact Hout. apply lookup_empty.
Qed.

(** C8. The table collection is built by the loader, one entry per sheet of
    the workbook, and no later operation changes it: each reporter, the
    renderer and the orchestrator, run from any state and whether it returns
    or raises, leaves every table (and the file path) as it was, and so does
    any sequence of them run on the loaded analyzer.  Sorting and taking the
    top rows produce new tables. *)
Theorem table_collection_read_only `{Pandas} `{Matplotlib} `{Floats}
    (path : string) (sheets : list (string * sheet)) (s0 : St) :
  files s0 !! path = Some (Xlsx sheets) ->
  exists s1,
    init path s0 = (inr tt, s1) /\
    (forall name, data s1 !! name = read_excel sheets name) /\
    (forall ops : list operation, data (snd (for_each ops perform s1)) = data s1) /\
    (forall (op : operation) (s : St), data (snd (perform op s)) = data s).
Proof.
  intros Hf. destruct (init_loads path sheets s0 Hf) as (s1 & E & _ & Hd).
  exists s1. repeat split; try assumption.
  - intros ops. apply keeps_for_each. intros op. apply keeps_perform.
  - intros op s. apply keeps_perform.
Qed.

Lemma table_collection_read_only_witness :
  exists s1,
    init "data/AVOXI_Billing_Analysis_.xlsx" boot = (inr tt, s1) /\
    (forall name, data s1 !! name = read_excel sample_workbook name) /\
    (forall ops : list operation,
       data (snd (for_each ops (@perform insertion_pandas ok_matplotlib exact_floats) s1)) = data s1) /\
    (forall (op : operation) (s : St),
       data (snd (@perform insertion_pandas ok_matplotlib exact_floats op s)) = data s).
Proof.
  apply (@table_collection_read_only insertion_pandas ok_matplotlib exact_floats
           "data/AVOXI_Billing_Analysis_.xlsx" sample_workbook boot).
  vm_compute. reflexivity.
Defined.

(** ** The orchestrator *)

Lemma run_full_analysis_inv `{Pandas} `{Matplotlib} `{Floats} s s' :
  run_full_analysis s = (inr tt, s') ->
  exists r1 r2 r3 r4 a b c d e,
    generate_summary_report (out s banner) = (inr r1, a) /\
    analyze_top_clients 10 a = (inr r2, b) /\
    analyze_vendor_efficiency b = (inr r3, c) /\
    identify_optimization_opportunities c = (inr r4, d) /\
    create_visualizations "visualizations" d = (inr tt, e) /\
    s' = out e recommendations_block.
Proof.
  unfold run_full_analysis. intros E.
  apply bind_inv in E. destruct E as ([] & s0 & E0 & E).
  rewrite for_each_print in E0. injection E0 as <-.
  apply bind_inv in E. destruct E as (r1 & a & E1 & E).
  apply bind_inv in E. destruct E as (r2 & b & E2 & E).
  apply bind_inv in E. destruct E as (r3 & c & E3 & E).
  apply bind_inv in E. destruct E as (r4 & d & E4 & E).
  apply bind_inv in E. destruct E as ([] & e & E5 & E).
  rewrite for_each_print in E. injection E as <-.
  exists r1, r2, r3, r4, a, b, c, d, e. repeat split; assumption.
Qed.

Lemma recommendations_expected : recommendations_block = expected_recommendations.
Proof. reflexivity. Qed.

Lemma banner_expected : banner = expected_banner.
Proof. vm_compute. reflexivity. Qed.




(** ** The renderer *)

Lemma append_inj_l (p a b : string) : p +:+ a = p +:+ b -> a = b.
Proof.
  induction p as [|c p IH]; simpl; intros E; [exact E|].
  injection E as E. exact (IH E).
Qed.

Lemma chart_paths_NoDup output_dir : NoDup (chart_paths output_dir).
Proof.
  unfold chart_paths, chart_names. simpl.
  repeat (apply NoDup_cons_2;
          [ rewrite list_elem_of_In; simpl;
            intros H; repeat (destruct H as [H|H]; [apply append_inj_l in H; discriminate|]);
            exact H
          | ]).
  apply NoDup_nil_2.
Qed.

Lemma reads_get_sheet name : reads_only (get_sheet name).
Proof.
  intros s r s'. unfold get_sheet. destruct (data s !! name); congruence.
Qed.

Lemma reads_lookup_metric rows m : reads_only (lookup_metric rows m).
Proof.
  intros s r s'. unfold lookup_metric, ret, raise.
  destruct (List.filter _ rows); congruence.
Qed.

Lemma reads_summary_rows t : reads_only (summary_rows t).
Proof. intros s r s'. destruct t; unfold summary_rows, ret, raise; congruence. Qed.

Lemma reads_client_rows t : reads_only (client_rows t).
Proof. intros s r s'. destruct t; unfold client_rows, ret, raise; congruence. Qed.

Lemma reads_vendor_rows t : reads_only (vendor_rows t).
Proof. intros s r s'. destruct t; unfold vendor_rows, ret, raise; congruence. Qed.

Lemma reads_country_rows t : reads_only (country_rows t).
Proof. intros s r s'. destruct t; unfold country_rows, ret, raise; congruence. Qed.

Lemma reads_carrier_rows t : reads_only (carrier_rows t).
Proof. intros s r s'. destruct t; unfold carrier_rows, ret, raise; congruence. Qed.

Lemma mkdir_inv p s s' :
  mkdir_exist_ok p s = (inr tt, s') ->
  is_dir s' p = true /\
  (s' = s \/ s' = set_dirs s ({[p]} ∪ dirs s)).
Proof.
  unfold mkdir_exist_ok.
  destruct (is_dir s p) eqn:D.
  - intros E. injection E as <-. auto.
  - destruct (files s !! p); [discriminate|].
    destruct (is_dir s (dirname p)); [|discriminate].
    intros E. injection E as <-. split.
    + unfold is_dir. cbn [dirs]. rewrite bool_decide_eq_true_2 by set_solver.
      rewrite orb_true_r. reflexivity.
    + right. reflexivity.
Qed.

Lemma savefig_inv `{Matplotlib} fig p s s' :
  savefig fig p s = (inr tt, s') ->
  exists img, s' = set_files s (<[p := Png img]> (files s)).
Proof.
  unfold savefig. destruct (render fig) as [img|]; [|discriminate].
  unfold write_file. destruct (is_dir s p); [discriminate|].
  destruct (is_dir s (dirname p)); [|discriminate].
  intros E. injection E as <-. exists img. reflexivity.
Qed.

Lemma create_visualizations_inv `{Pandas} `{Matplotlib} output_dir s s' :
  create_visualizations output_dir s = (inr tt, s') ->
  exists s0 i1 i2 i3 i4,
    mkdir_exist_ok (Path output_dir) s = (inr tt, s0) /\
    s' = out (set_files s0
           (<[output_dir +:+ "/04_carrier_analysis.png" := Png i4]>
           (<[output_dir +:+ "/03_vendor_costs.png" := Png i3]>
           (<[output_dir +:+ "/02_country_performance.png" := Png i2]>
           (<[output_dir +:+ "/01_revenue_margin_analysis.png" := Png i1]>
              (files s0))))))
         [nl +:+ "‚úì All visualizations saved to '" +:+ output_dir +:+ "/' directory"].
Proof.
  unfold create_visualizations. intros E.
  apply bind_inv in E. destruct E as ([] & s0 & Emk & E).
  exists s0.
  apply bind_inv in E. destruct E as (t1 & x & R & E). apply reads_get_sheet in R. subst x.
  apply bind_inv in E. destruct E as (summary & x & R & E). apply reads_summary_rows in R. subst x.
  apply bind_inv in E. destruct E as (cm & x & R & E). apply reads_lookup_metric in R. subst x.
  apply bind_inv in E. destruct E as (pm & x & R & E). apply reads_lookup_metric in R. subst x.
  cbv zeta in E.
  apply bind_inv in E. destruct E as (t2 & x & R & E). apply reads_get_sheet in R. subst x.
  apply bind_inv in E. destruct E as (clients & x & R & E). apply reads_client_rows in R. subst x.
  cbv zeta in E.
  apply bind_inv in E. destruct E as ([] & a & S1 & E).
  apply savefig_inv in S1. destruct S1 as (i1 & ->).
  apply bind_inv in E. destruct E as (t3 & x & R & E). apply reads_get_sheet in R. subst x.
  apply bind_inv in E. destruct E as (countries & x & R & E). apply reads_country_rows in R. subst x.
  cbv zeta in E.
  apply bind_inv in E. destruct E as ([] & b & S2 & E).
  apply savefig_inv in S2. destruct S2 as (i2 & ->).
  apply bind_inv in E. destruct E as (t4 & x & R & E). apply reads_get_sheet in R. subst x.
  apply bind_inv in E. destruct E as (vendors & x & R & E). apply reads_vendor_rows in R. subst x.
  cbv zeta in E.
  apply bind_inv in E. destruct E as ([] & c & S3 & E).
  apply savefig_inv in S3. destruct S3 as (i3 & ->).
  apply bind_inv in E. destruct E as (t5 & x & R & E). apply reads_get_sheet in R. subst x.
  apply bind_inv in E. destruct E as (carriers & x & R & E). apply reads_carrier_rows in R. subst x.
  cbv zeta in E.
  apply bind_inv in E. destruct E as ([] & d & S4 & E).
  apply savefig_inv in S4. destruct S4 as (i4 & ->).
  rewrite print_out in E. injection E as <-.
  exists i1, i2, i3, i4. split; [exact Emk | reflexivity].
Qed.

Lemma list_ascii_app (a b : string) :
  list_ascii_of_string (a +:+ b) = (list_ascii_of_string a ++ list_ascii_of_string b)%list.
Proof. induction a as [|c a IH]; simpl; [reflexivity | rewrite IH; reflexivity]. Qed.

Lemma after_slash_app (pre rest : list ascii) :
  List.Forall (fun c => is_slash c = false) pre ->
  after_slash (pre ++ "/"%char :: rest) = Some rest.
Proof.
  induction 1 as [|c pre Hc _ IH]; simpl; [reflexivity|].
  rewrite Hc. exact IH.
Qed.

Lemma dirname_in_dir (dir base : string) :
  List.Forall (fun c => is_slash c = false) (list_ascii_of_string base) ->
  dirname (dir +:+ String "/" base) =
  match list_ascii_of_string dir with [] => "/" | _ => Path dir end.
Proof.
  intros Hb. unfold dirname, Path.
  rewrite list_ascii_app. simpl list_ascii_of_string.
  rewrite rev_app_distr. simpl rev. rewrite <- app_assoc. simpl app.
  rewrite after_slash_app by (apply List.Forall_rev, Hb).
  destruct (list_ascii_of_string dir) as [|c l]; reflexivity.
Qed.

Lemma string_length_list (s : string) :
  String.length s = length (list_ascii_of_string s).
Proof. induction s as [|c s IH]; simpl; [reflexivity | rewrite IH; reflexivity]. Qed.

Lemma drop_slashes_length (l : list ascii) : (length (drop_slashes l) <= length l)%nat.
Proof.
  induction l as [|c l IH]; simpl; [lia|].
  destruct (is_slash c); simpl; lia.
Qed.

Lemma Path_length (dir : string) : (String.length (Path dir) <= S (String.length dir))%nat.
Proof.
  unfold Path. rewrite (string_length_list dir).
  destruct (list_ascii_of_string dir) as [|c l]; [simpl; lia|].
  pose proof (drop_slashes_length (rev (c :: l))) as Hd.
  rewrite length_rev in Hd.
  destruct (drop_slashes (rev (c :: l))) as [|c' l'] eqn:E; [simpl; lia|].
  rewrite string_length_list, list_ascii_of_string_of_list_ascii, length_rev. lia.
Qed.

Lemma string_length_app (a b : string) :
  String.length (a +:+ b) = (String.length a + String.length b)%nat.
Proof. induction a as [|c a IH]; simpl; [reflexivity | rewrite IH; reflexivity]. Qed.

Lemma chart_path_not_Path (dir p : string) :
  In p (chart_paths dir) -> p <> Path dir.
Proof.
  intros Hin E. apply (f_equal String.length) in E.
  pose proof (Path_length dir) as HP.
  unfold chart_paths, chart_names in Hin. simpl in Hin.
  destruct Hin as [<-|[<-|[<-|[<-|[]]]]];
    rewrite string_length_app in E; simpl in E; lia.
Qed.

Lemma chart_path_dirname (dir p : string) (x : St) :
  In p (chart_paths dir) -> is_dir x (Path dir) = true -> is_dir x (dirname p) = true.
Proof.
  intros Hin Hd. unfold chart_paths, chart_names in Hin. simpl in Hin.
  destruct Hin as [<-|[<-|[<-|[<-|[]]]]];
    (rewrite dirname_in_dir by (repeat constructor));
    (destruct (list_ascii_of_string dir); [reflexivity | exact Hd]).
Qed.

Lemma chart_path_dirname_eq (dir p : string) :
  In p (chart_paths dir) ->
  dirname p = match dir with EmptyString => "/" | String _ _ => Path dir end.
Proof.
  intros Hin. unfold chart_paths, chart_names in Hin. simpl in Hin.
  destruct Hin as [<-|[<-|[<-|[<-|[]]]]];
    (rewrite dirname_in_dir by (repeat constructor));
    destruct dir; reflexivity.
Qed.

Lemma same_file_refl (p : string) : same_file p p = true.
Proof.
  unfold same_file. rewrite (bool_decide_eq_true_2 _ eq_refl).
  apply orb_true_r.
Qed.

(** A path that is no spelling of a chart path is not a chart path. *)
Lemma not_a_chart_path (dir k : string) :
  (forall p, In p (chart_paths dir) -> same_file k p = false) ->
  ~ In k (chart_paths dir).
Proof.
  intros Hk Hin. specialize (Hk k Hin). rewrite same_file_refl in Hk. discriminate.
Qed.




(** With the empty path the directory made sure of is the current one, and
    the charts go to the root directory. *)
Example visualizations_empty_path :
  let s' := snd (@create_visualizations insertion_pandas ok_matplotlib "" empty_disk) in
  Path "" = "." /\
  is_Some (files s' !! "/01_revenue_margin_analysis.png") /\
  dirname "/01_revenue_margin_analysis.png" = "/".
Proof. vm_compute. repeat split. eexists. reflexivity. Qed.

(** The renderer does not complete on every input: [mkdir] is called without
    [parents=True], a table may be missing, and drawing may raise; files
    written before the failure stay. *)
Example visualizations_missing_parent :
  fst (@create_visualizations insertion_pandas ok_matplotlib "out/charts" empty_disk)
  = inl (FileNotFoundError "out/charts").
Proof. vm_compute. reflexivity. Qed.

Example visualizations_missing_table :
  let r := @create_visualizations insertion_pandas ok_matplotlib "visualizations"
             (set_data empty_disk (delete "Vendor Costs" (data empty_disk))) in
  fst r = inl (KeyError "Vendor Costs") /\ size (files (snd r)) = 2%nat.
Proof. vm_compute. split; reflexivity. Qed.

Example visualizations_drawing_fails :
  fst (@create_visualizations insertion_pandas failing_matplotlib "visualizations" empty_disk)
  = inl RenderError.
Proof. vm_compute. reflexivity. Qed.

(** ** The order of rows with equal Revenue

    [sort_values] is called with its default kind, which does not promise to
    keep rows of equal key in their stored order.  Both sorts below meet the
    contract; they arrange two tied rows differently. *)

Example tied_rows_insertion :
  fst (@analyze_top_clients insertion_pandas exact_floats 10 tied_state) = inr tied_clients.
Proof. vm_compute. reflexivity. Qed.

Example tied_rows_reversing :
  fst (@analyze_top_clients reversing_pandas exact_floats 10 tied_state) = inr (rev tied_clients).
Proof. vm_compute. reflexivity. Qed.

(** ** More on loading *)

Lemma init_state path sheets s0 :
  files s0 !! path = Some (Xlsx sheets) ->
  init path s0 =
    (inr tt,
     mkSt path (load_fold sheets (map fst sheets) ∅)
          (stdout s0 ++ [loaded_line (size (load_fold sheets (map fst sheets) ∅))])
          (dirs s0) (files s0)).
Proof.
  intros Hf. unfold init, load_data.
  erewrite bind_ok by reflexivity.
  erewrite bind_ok
    by (unfold ExcelFile; cbn [files filepath]; rewrite Hf; reflexivity).
  erewrite bind_ok by (apply load_loop; intros n; apply read_excel_in).
  erewrite bind_ok by reflexivity.
  reflexivity.
Qed.

Lemma load_fold_lookup sheets name :
  load_fold sheets (map fst sheets) ∅ !! name = read_excel sheets name.
Proof.
  destruct (in_dec string_dec name (map fst sheets)) as [Hin|Hout].
  - apply load_fold_loaded; [intros n; apply read_excel_in | exact Hin].
  - rewrite load_fold_other by exact Hout.
    rewrite read_excel_not_in by exact Hout. apply lookup_empty.
Qed.

Lemma read_excel_NoDup sheets name t :
  NoDup (map fst sheets) -> In (name, t) sheets -> read_excel sheets name = Some t.
Proof.
  induction sheets as [|[n u] sheets IH]; simpl; intros ND Hin; [destruct Hin|].
  apply NoDup_cons in ND. destruct ND as [Hn ND].
  destruct Hin as [E|Hin].
  - injection E as -> ->. rewrite String.eqb_refl. reflexivity.
  - destruct (String.eqb_spec n name) as [->|N].
    + exfalso. apply Hn. apply list_elem_of_In.
      change name with (fst (name, t)). apply in_map. exact Hin.
    + apply IH; assumption.
Qed.

Lemma load_fold_dom sheets :
  dom (load_fold sheets (map fst sheets) ∅) = list_to_set (map fst sheets).
Proof.
  apply set_eq. intros k.
  rewrite elem_of_dom, load_fold_lookup, elem_of_list_to_set, list_elem_of_In.
  split.
  - intros [t E]. destruct (in_dec string_dec k (map fst sheets)) as [H|H]; [exact H|].
    rewrite read_excel_not_in in E by exact H. discriminate.
  - intros H. destruct (read_excel sheets k) eqn:E; [eauto|].
    exfalso. exact (read_excel_in _ _ H E).
Qed.

(** X1. Loading a workbook whose sheet names are distinct stores every sheet
    under its name, reports the number of sheets, and leaves the disk as it
    was; whatever the analyzer held before is replaced. *)
Theorem init_loads_every_sheet (path : string) (sheets : list (string * sheet)) (s0 : St) :
  files s0 !! path = Some (Xlsx sheets) ->
  NoDup (map fst sheets) ->
  exists s1,
    init path s0 = (inr tt, s1) /\
    filepath s1 = path /\
    (forall name t, In (name, t) sheets -> data s1 !! name = Some t) /\
    (forall name, ~ In name (map fst sheets) -> data s1 !! name = None) /\
    size (data s1) = length sheets /\
    stdout s1 = (stdout s0 ++ [loaded_line (length sheets)])%list /\
    dirs s1 = dirs s0 /\ files s1 = files s0.
Proof.
  intros Hf ND. eexists. split; [apply init_state, Hf|].
  cbn [filepath data stdout dirs files].
  assert (Hsize : size (load_fold sheets (map fst sheets) ∅) = length sheets).
  { rewrite <- size_dom, load_fold_dom, size_list_to_set by exact ND.
    apply length_map. }
  rewrite Hsize. repeat split.
  - intros name t Hin. rewrite load_fold_lookup. apply read_excel_NoDup; assumption.
  - intros name Hout. rewrite load_fold_lookup. apply read_excel_not_in, Hout.
Qed.

Lemma init_loads_every_sheet_witness :
  exists s1,
    init "data/AVOXI_Billing_Analysis_.xlsx" boot = (inr tt, s1) /\
    filepath s1 = "data/AVOXI_Billing_Analysis_.xlsx" /\
    (forall name t, In (name, t) sample_workbook -> data s1 !! name = Some t) /\
    (forall name, ~ In name (map fst sample_workbook) -> data s1 !! name = None) /\
    size (data s1) = length sample_workbook /\
    stdout s1 = (stdout boot ++ [loaded_line (length sample_workbook)])%list /\
    dirs s1 = dirs boot /\ files s1 = files boot.
Proof.
  apply (init_loads_every_sheet "data/AVOXI_Billing_Analysis_.xlsx" sample_workbook boot).
  - vm_compute. reflexivity.
  - unfold sample_workbook. simpl.
    repeat (apply NoDup_cons_2;
            [ rewrite list_elem_of_In; simpl; intros H;
              repeat (destruct H as [H|H]; [discriminate|]); exact H | ]).
    apply NoDup_nil_2.
Defined.


(** ** Reporters read the tables and print, nothing else *)

Lemma report_ret {A} (a : A) : report_only (ret a).
Proof.
  intros d. exists (inr a), []. intros fp so ds g.
  unfold ret. rewrite app_nil_r. reflexivity.
Qed.

Lemma report_raise {A} (e : exn) : report_only (@raise A e).
Proof.
  intros d. exists (inl e), []. intros fp so ds g.
  unfold raise. rewrite app_nil_r. reflexivity.
Qed.

Lemma report_print text : report_only (print text).
Proof. intros d. exists (inr tt), [text]. intros fp so ds g. reflexivity. Qed.

Lemma report_get_sheet name : report_only (get_sheet name).
Proof.
  intros d. exists (match d !! name with Some t => inr t | None => inl (KeyError name) end), [].
  intros fp so ds g. unfold get_sheet. cbn [data]. rewrite app_nil_r.
  destruct (d !! name); reflexivity.
Qed.

Lemma report_bind {A B} (m : M A) (f : A -> M B) :
  report_only m -> (forall a, report_only (f a)) -> report_only (bind m f).
Proof.
  intros Hm Hf d. destruct (Hm d) as ([e|a] & lines & E).
  - exists (inl e), lines. intros fp so ds g. unfold bind. rewrite E. reflexivity.
  - destruct (Hf a d) as (r & lines' & E').
    exists r, (lines ++ lines')%list. intros fp so ds g.
    unfold bind. rewrite E, E', app_assoc. reflexivity.
Qed.

Lemma report_for_each {A} (l : list A) (body : A -> M unit) :
  (forall x, report_only (body x)) -> report_only (for_each l body).
Proof.
  intros Hb. induction l as [|x l IH]; simpl.
  - apply report_ret.
  - apply report_bind; [apply Hb | intros _; exact IH].
Qed.

Lemma report_if {A} (c : bool) (a b : M A) :
  report_only a -> report_only b -> report_only (if c then a else b).
Proof. destruct c; auto. Qed.

Lemma report_lookup_metric rows m : report_only (lookup_metric rows m).
Proof.
  unfold lookup_metric.
  destruct (List.filter _ rows); [apply report_raise | apply report_ret].
Qed.

Lemma report_summary_rows t : report_only (summary_rows t).
Proof. destruct t; first [apply report_ret | apply report_raise]. Qed.

Lemma report_client_rows t : report_only (client_rows t).
Proof. destruct t; first [apply report_ret | apply report_raise]. Qed.

Lemma report_vendor_rows t : report_only (vendor_rows t).
Proof. destruct t; first [apply report_ret | apply report_raise]. Qed.

Lemma report_low_client_rows t : report_only (low_client_rows t).
Proof. destruct t; first [apply report_ret | apply report_raise]. Qed.

Lemma report_low_country_rows t : report_only (low_country_rows t).
Proof. destruct t; first [apply report_ret | apply report_raise]. Qed.

Create HintDb report.

#[local] Hint Resolve report_ret report_raise report_print report_get_sheet
  report_lookup_metric report_summary_rows report_client_rows report_vendor_rows
  report_low_client_rows report_low_country_rows : report.

Ltac report :=
  repeat first
    [ apply report_bind; [|intros ?]
    | apply report_for_each; intros ?
    | apply report_if
    | solve [auto with report]
    | progress cbv zeta ].

Lemma report_generate_summary_report `{Floats} : report_only generate_summary_report.
Proof. unfold generate_summary_report. report. Qed.

Lemma report_analyze_top_clients `{Pandas} `{Floats} n : report_only (analyze_top_clients n).
Proof. unfold analyze_top_clients. report. Qed.

Lemma report_analyze_vendor_efficiency `{Floats} : report_only analyze_vendor_efficiency.
Proof. unfold analyze_vendor_efficiency. report. Qed.

Lemma report_identify_optimization_opportunities `{Floats} :
  report_only identify_optimization_opportunities.
Proof. unfold identify_optimization_opportunities. report. Qed.

(** X3. Each of the four reporters is a function of the table collection
    alone: what it returns (or raises) and the lines it prints are the same
    whatever was printed before and whatever the disk holds, and its only
    effect is to append those lines to the output; it never changes the file
    path, the tables, the directories or the files. *)
Theorem reporters_read_tables_and_print `{Pandas} `{Floats} (n : Z) :
  report_only generate_summary_report /\
  report_only (analyze_top_clients n) /\
  report_only analyze_vendor_efficiency /\
  report_only identify_optimization_opportunities.
Proof.
  repeat split.
  - apply report_generate_summary_report.
  - apply report_analyze_top_clients.
  - apply report_analyze_vendor_efficiency.
  - apply report_identify_optimization_opportunities.
Qed.

(** ** Missing tables and missing metrics *)

(** X4. A reporter whose table is missing raises the KeyError of the table's
    name.  The summary report has printed its heading by then; the other three
    reporters have printed nothing, and the optimization report looks up both
    of its tables before it prints. *)
Theorem reporters_missing_table `{Pandas} `{Floats} (s : St) (n : Z) :
  (data s !! "Summary" = None ->
   generate_summary_report s = (inl (KeyError "Summary"), out s summary_heading)) /\
  (data s !! "Client Breakdown" = None ->
   analyze_top_clients n s = (inl (KeyError "Client Breakdown"), s)) /\
  (data s !! "Vendor Costs" = None ->
   analyze_vendor_efficiency s = (inl (KeyError "Vendor Costs"), s)) /\
  (data s !! "Low Margin Clients" = None ->
   identify_optimization_opportunities s = (inl (KeyError "Low Margin Clients"), s)) /\
  (forall t, data s !! "Low Margin Clients" = Some t ->
   data s !! "Low Margin Countries" = None ->
   identify_optimization_opportunities s = (inl (KeyError "Low Margin Countries"), s)).
Proof.
  repeat split.
  - intros E. unfold generate_summary_report. do 3 step_print.
    erewrite bind_err by (apply get_sheet_none; exact E).
    rewrite !out_out. reflexivity.
  - intros E. unfold analyze_top_clients.
    erewrite bind_err by (apply get_sheet_none; exact E). reflexivity.
  - intros E. unfold analyze_vendor_efficiency.
    erewrite bind_err by (apply get_sheet_none; exact E). reflexivity.
  - intros E. unfold identify_optimization_opportunities.
    erewrite bind_err by (apply get_sheet_none; exact E). reflexivity.
  - intros t Et E. unfold identify_optimization_opportunities.
    erewrite bind_ok by (apply get_sheet_some; exact Et).
    erewrite bind_err by (apply get_sheet_none; exact E). reflexivity.
Qed.

Lemma reporters_missing_table_witness :
  let s := mkSt "" {["Low Margin Clients" := LowClients_sheet []]} [] ∅ ∅ in
  generate_summary_report s = (inl (KeyError "Summary"), out s summary_heading) /\
  @analyze_top_clients insertion_pandas exact_floats 10 s = (inl (KeyError "Client Breakdown"), s) /\
  analyze_vendor_efficiency s = (inl (KeyError "Vendor Costs"), s) /\
  identify_optimization_opportunities s = (inl (KeyError "Low Margin Countries"), s).
Proof.
  intros s.
  destruct (@reporters_missing_table insertion_pandas exact_floats s 10) as (H1 & H2 & H3 & _ & H5).
  split; [apply H1; reflexivity|].
  split; [apply H2; reflexivity|].
  split; [apply H3; reflexivity|].
  apply (H5 (LowClients_sheet [])); reflexivity.
Defined.

(** X5. When the Summary table is present and one of the five metrics has no
    row, the summary report raises the index error having printed its heading
    and nothing else: all five lookups are made before the first figure is
    printed. *)
Theorem summary_report_missing_metric `{Floats} (s : St) (rows : list SummaryRow) (m : string) :
  data s !! "Summary" = Some (Summary_sheet rows) ->
  In m reported_metrics ->
  (forall x, In x rows -> Metric x <> m) ->
  generate_summary_report s = (inl IndexError, out s summary_heading).
Proof.
  intros Hs Hin Hnone. apply matching_nil_iff in Hnone.
  exact (generate_summary_report_index_error s rows m Hs Hin Hnone).
Qed.

Lemma summary_report_missing_metric_witness :
  let s := mkSt "" {["Summary" := Summary_sheet (List.tl sample_summary)]} [] ∅ ∅ in
  generate_summary_report s = (inl IndexError, out s summary_heading).
Proof.
  intros s.
  apply (summary_report_missing_metric s (List.tl sample_summary) "Total Revenue").
  - reflexivity.
  - simpl. tauto.
  - simpl. intros x [<-|[<-|[<-|[<-|[]]]]]; discriminate.
Defined.

(** ** The sign of the improvement *)

Lemma percent_negative (p : nat) (q : Q) :
  (q < 0)%Q -> exists rest, Fmt.percent p q = "-" +:+ rest.
Proof.
  intros Hq. unfold Fmt.percent, Fmt.fixed.
  assert (E : (Qnum (q * 100) <? 0)%Z = true).
  { apply Z.ltb_lt. unfold Qlt in Hq. simpl in Hq |- *. lia. }
  rewrite E. simpl. eexists. reflexivity.
Qed.

(** X6. The improvement line carries a fixed plus sign: when the projected
    margin is below the current margin the summary report still completes and
    its last line reads Improvement: +-..., a plus followed by the minus of the
    negative difference. *)
Theorem summary_improvement_sign (s : St) (rows : list SummaryRow)
    (r1 r2 r3 r4 r5 : SummaryRow) (t1 t2 t3 t4 t5 : list SummaryRow) :
  data s !! "Summary" = Some (Summary_sheet rows) ->
  matching "Total Revenue" rows = r1 :: t1 ->
  matching "Total Cost" rows = r2 :: t2 ->
  matching "Gross Margin % (Current)" rows = r3 :: t3 ->
  matching "Total Revenue (After Increase)" rows = r4 :: t4 ->
  matching "Gross Margin % (After Increase)" rows = r5 :: t5 ->
  (Value r5 < Value r3)%Q ->
  exists res s' before rest,
    generate_summary_report s = (inr res, s') /\
    stdout s' = (before ++ ["  Improvement:   +-" +:+ rest])%list.
Proof.
  intros Hs H1 H2 H3 H4 H5 Hlt.
  destruct (percent_negative 2 (Value r5 - Value r3)%Q) as [rest E].
  { apply (Qplus_lt_l _ _ (Value r3)). ring_simplify. exact Hlt. }
  eexists. eexists.
  exists (stdout s ++ summary_heading ++
          removelast (summary_lines (Value r1) (Value r2) (Value r3) (Value r4) (Value r5)))%list.
  exists rest.
  split; [eapply generate_summary_report_ok; eassumption|].
  cbn [stdout out]. unfold summary_lines. cbn [removelast].
  cbn [format_percent float_sub exact_floats ref_percent].
  rewrite E. rewrite <- !app_assoc. reflexivity.
Qed.

Lemma summary_improvement_sign_witness :
  exists res s' before rest,
    generate_summary_report declining_state = (inr res, s') /\
    stdout s' = (before ++ ["  Improvement:   +-" +:+ rest])%list.
Proof.
  eapply (summary_improvement_sign declining_state declining_summary);
    [reflexivity .. | ].
  reflexivity.
Defined.

(** ** More on the top-clients report *)

Lemma head_as_firstn {A} (n : Z) (l : list A) :
  head n l = firstn (if (0 <=? n)%Z then Z.to_nat n
                     else (length l - Z.to_nat (- n))%nat) l.
Proof. unfold head. destruct (0 <=? n)%Z; reflexivity. Qed.

Lemma sorted_prefix_spec (P : Pandas) (rows : list ClientRow) (k : nat) :
  sort_values_contract P ->
  let sorted := sort_values_desc c_Revenue rows in
  length (firstn k sorted) = Nat.min k (length rows) /\
  StronglySorted (fun a b => c_Revenue b <= c_Revenue a)%Q (firstn k sorted) /\
  Permutation (firstn k sorted ++ skipn k sorted) rows /\
  (forall a b, In a (firstn k sorted) -> In b (skipn k sorted) ->
     (c_Revenue b <= c_Revenue a)%Q).
Proof.
  intros [Hperm Hsorted] sorted.
  pose proof (Hperm _ c_Revenue rows) as Pm.
  pose proof (Hsorted _ c_Revenue rows) as S.
  fold sorted in Pm, S.
  rewrite <- (firstn_skipn k sorted) in S.
  destruct (sorted_app_inv c_Revenue _ _ S) as (S1 & _ & C).
  repeat split.
  - rewrite length_firstn. f_equal. apply Permutation_length, Pm.
  - exact S1.
  - rewrite firstn_skipn. exact Pm.
  - exact C.
Qed.

(** X7. The top-clients report prints its heading and then exactly one line
    per row it returns, in the order returned: the customer, the revenue, the
    margin as a percentage and the number of calls, in columns.  The rows
    returned are rows of the table, each at most as often as the table holds
    it; a count of zero returns nothing, and a count of at least the number of
    rows returns the whole table, sorted. *)
Theorem top_clients_prints_what_it_returns
    (P : Pandas) `{Floats} (s : St) (rows : list ClientRow) (n : Z) :
  sort_values_contract P ->
  data s !! "Client Breakdown" = Some (Clients_sheet rows) ->
  exists top,
    analyze_top_clients n s =
      (inr top,
       out s ([ nl +:+ rule;
                "TOP " +:+ Fmt.int_str n +:+ " CLIENTS BY REVENUE";
                rule ] ++
              map (fun row =>
                     Fmt.ljust 12 (c_Customer row) +:+ " | Rev: $" +:+
                     Fmt.rjust 10 (format_fixed true 2 (Fin (c_Revenue row))) +:+
                     " | Margin: " +:+
                     Fmt.rjust 6 (format_percent 1 (Fin (c_GM row))) +:+
                     " | Calls: " +:+ Fmt.rjust 6 (Fmt.int_str (c_Calls row)))
                  top)) /\
    (exists rest, Permutation (top ++ rest) rows) /\
    (n = 0%Z -> top = []) /\
    ((Z.of_nat (length rows) <= n)%Z ->
     Permutation top rows /\
     StronglySorted (fun a b => c_Revenue b <= c_Revenue a)%Q top).
Proof.
  intros HP Hs. exists (head n (sort_values_desc c_Revenue rows)).
  split; [exact (analyze_top_clients_ok s rows n Hs)|].
  rewrite head_as_firstn.
  set (k := if (0 <=? n)%Z then Z.to_nat n else _).
  destruct (sorted_prefix_spec P rows k HP) as (Hlen & Hsort & Hpm & _).
  split; [eexists; exact Hpm|]. split.
  - intros ->. reflexivity.
  - intros Hn. split; [|exact Hsort].
    assert (Hk : (length (sort_values_desc c_Revenue rows) <= k)%nat).
    { destruct HP as [Hperm _]. rewrite (Permutation_length (Hperm _ c_Revenue rows)).
      unfold k. destruct (0 <=? n)%Z eqn:E; [lia|]. apply Z.leb_gt in E. lia. }
    rewrite firstn_all2 by exact Hk.
    destruct HP as [Hperm _]. apply Hperm.
Qed.

Lemma top_clients_prints_what_it_returns_witness :
  exists top,
    @analyze_top_clients insertion_pandas exact_floats 10 loaded =
      (inr top,
       out loaded ([ nl +:+ rule;
                "TOP " +:+ Fmt.int_str 10 +:+ " CLIENTS BY REVENUE";
                rule ] ++
              map (fun row =>
                     Fmt.ljust 12 (c_Customer row) +:+ " | Rev: $" +:+
                     Fmt.rjust 10 (format_fixed true 2 (Fin (c_Revenue row))) +:+
                     " | Margin: " +:+
                     Fmt.rjust 6 (format_percent 1 (Fin (c_GM row))) +:+
                     " | Calls: " +:+ Fmt.rjust 6 (Fmt.int_str (c_Calls row)))
                  top)) /\
    (exists rest, Permutation (top ++ rest) sample_clients) /\
    (10%Z = 0%Z -> top = []) /\
    ((Z.of_nat (length sample_clients) <= 10)%Z ->
     Permutation top sample_clients /\
     StronglySorted (fun a b => c_Revenue b <= c_Revenue a)%Q top).
Proof.
  apply (@top_clients_prints_what_it_returns insertion_pandas exact_floats
           loaded sample_clients 10).
  - apply insertion_pandas_contract.
  - vm_compute. reflexivity.
Defined.

(** X8. A negative count -k makes the top-clients report return all rows but
    the last k of the sorted table: it returns (number of rows - k) rows, none
    when k is at least the number of rows, sorted by Revenue non-increasing,
    and no row it leaves out has a larger Revenue than a row it returns. *)
Theorem top_clients_negative_count
    (P : Pandas) `{Floats} (s : St) (rows : list ClientRow) (n : Z) :
  sort_values_contract P ->
  data s !! "Client Breakdown" = Some (Clients_sheet rows) ->
  (n < 0)%Z ->
  exists top s',
    analyze_top_clients n s = (inr top, s') /\
    length top = (length rows - Z.to_nat (- n))%nat /\
    StronglySorted (fun a b => c_Revenue b <= c_Revenue a)%Q top /\
    (exists rest, Permutation (top ++ rest) rows /\
       length rest = Nat.min (Z.to_nat (- n)) (length rows) /\
       forall a b, In a top -> In b rest -> (c_Revenue b <= c_Revenue a)%Q).
Proof.
  intros HP Hs Hn. exists (head n (sort_values_desc c_Revenue rows)). eexists.
  split; [apply analyze_top_clients_ok, Hs|].
  rewrite head_as_firstn.
  assert (E : (0 <=? n)%Z = false) by (apply Z.leb_gt; exact Hn).
  rewrite E.
  assert (Hl : length (sort_values_desc c_Revenue rows) = length rows).
  { destruct HP as [Hperm _]. apply Permutation_length, Hperm. }
  rewrite Hl.
  set (k := (length rows - Z.to_nat (- n))%nat).
  destruct (sorted_prefix_spec P rows k HP) as (Hlen & Hsort & Hpm & Hcross).
  split; [rewrite Hlen; unfold k; lia|]. split; [exact Hsort|].
  exists (skipn k (sort_values_desc c_Revenue rows)). split; [exact Hpm|].
  split; [|exact Hcross].
  rewrite length_skipn, Hl. unfold k. lia.
Qed.

Lemma top_clients_negative_count_witness :
  exists top s',
    @analyze_top_clients insertion_pandas exact_floats (-1) loaded = (inr top, s') /\
    length top = (length sample_clients - Z.to_nat (- (-1)))%nat /\
    StronglySorted (fun a b => c_Revenue b <= c_Revenue a)%Q top /\
    (exists rest, Permutation (top ++ rest) sample_clients /\
       length rest = Nat.min (Z.to_nat (- (-1))) (length sample_clients) /\
       forall a b, In a top -> In b rest -> (c_Revenue b <= c_Revenue a)%Q).
Proof.
  apply (@top_clients_negative_count insertion_pandas exact_floats loaded sample_clients (-1)).
  - apply insertion_pandas_contract.
  - vm_compute. reflexivity.
  - lia.
Defined.

(** ** More on the vendor report *)

Lemma Qsum_nonneg (l : list Q) :
  List.Forall (fun x => 0 <= x)%Q l -> (0 <= Qsum l)%Q.
Proof.
  induction 1 as [|x l Hx _ IH]; simpl.
  - apply Qle_refl.
  - rewrite <- (Qplus_0_r 0). apply Qplus_le_compat; assumption.
Qed.

Lemma Qsum_member_le (l : list Q) (x : Q) :
  List.Forall (fun y => 0 <= y)%Q l -> In x l -> (x <= Qsum l)%Q.
Proof.
  induction 1 as [|y l Hy Hl IH]; simpl; intros Hin; [destruct Hin|].
  destruct Hin as [->|Hin].
  - rewrite <- (Qplus_0_r x) at 1. apply Qplus_le_compat;
      [apply Qle_refl | apply Qsum_nonneg, Hl].
  - rewrite <- (Qplus_0_l x). apply Qplus_le_compat; [exact Hy | exact (IH Hin)].
Qed.

Lemma shares_between_0_and_100 (vendors : list VendorRow) (shares : list Q) :
  List.Forall (fun r => 0 <= v_TotalCost r)%Q vendors ->
  (0 < Qsum (map v_TotalCost vendors))%Q ->
  Forall2 (fun row share =>
             (share == v_TotalCost row / Qsum (map v_TotalCost vendors) * 100)%Q)
          vendors shares ->
  List.Forall (fun share => 0 <= share /\ share <= 100)%Q shares.
Proof.
  intros Hnn Hpos Hf.
  set (T := Qsum (map v_TotalCost vendors)) in *.
  assert (Hle : forall row, In row vendors -> (v_TotalCost row <= T)%Q).
  { intros row Hin. unfold T. apply Qsum_member_le.
    - apply List.Forall_forall. intros y Hy. apply in_map_iff in Hy.
      destruct Hy as (r & <- & Hr). rewrite List.Forall_forall in Hnn. apply Hnn, Hr.
    - apply in_map, Hin. }
  rewrite List.Forall_forall in Hnn.
  assert (Hall : forall row, In row vendors -> (0 <= v_TotalCost row <= T)%Q)
    by (intros row Hin; split; [apply Hnn, Hin | apply Hle, Hin]).
  clear Hnn Hle. clearbody T.
  induction Hf as [|row share rows shares E _ IH]; [constructor|].
  constructor.
  - destruct (Hall row (or_introl eq_refl)) as [Hc0 HcT]. rewrite E. split.
    + apply Qmult_le_0_compat; [|discriminate].
      apply Qle_shift_div_l; [exact Hpos|]. rewrite Qmult_0_l. exact Hc0.
    + apply Qle_trans with (1 * 100)%Q; [|discriminate].
      apply Qmult_le_compat_r; [|discriminate].
      apply Qle_shift_div_r; [exact Hpos|]. rewrite Qmult_1_l. exact HcT.
  - apply IH. intros r Hr. apply Hall. right. exact Hr.
Qed.

(** X9. Over exact arithmetic, when no vendor has a negative cost and the
    total is positive, the vendor report completes and the share it prints on
    each vendor's line is a number between 0 and 100. *)
Theorem vendor_share_between_0_and_100 `{F : Floats} (s : St) (vendors : list VendorRow) :
  exact_arithmetic F ->
  data s !! "Vendor Costs" = Some (Vendors_sheet vendors) ->
  List.Forall (fun r => 0 <= v_TotalCost r)%Q vendors ->
  (0 < Qsum (map v_TotalCost vendors))%Q ->
  exists shares : list Q,
    analyze_vendor_efficiency s =
      (inr (Vendors_sheet vendors),
       out s ([ nl +:+ rule; "VENDOR COST ANALYSIS"; rule ] ++
              map (fun '(row, share) =>
                     Fmt.ljust 12 (v_Vendor row) +:+ " | Cost: $" +:+
                     Fmt.rjust 10 (format_fixed true 2 (Fin (v_TotalCost row))) +:+
                     " | Share: " +:+
                     Fmt.rjust 5 (format_fixed false 1 (Fin share)) +:+ "%")
                  (combine vendors shares))) /\
    length shares = length vendors /\
    List.Forall (fun share => 0 <= share /\ share <= 100)%Q shares.
Proof.
  intros HF Hs Hnn Hpos.
  assert (NZ : ~ (Qsum (map v_TotalCost vendors) == 0)%Q).
  { intros E. rewrite E in Hpos. exact (Qlt_irrefl _ Hpos). }
  destruct (vendor_report_exact s vendors HF Hs NZ) as (shares & E & _ & Hl & Hf).
  exists shares. split; [exact E|]. split; [exact Hl|].
  exact (shares_between_0_and_100 vendors shares Hnn Hpos Hf).
Qed.

Lemma vendor_share_between_0_and_100_witness :
  exists shares : list Q,
    analyze_vendor_efficiency loaded =
      (inr (Vendors_sheet sample_vendors),
       out loaded ([ nl +:+ rule; "VENDOR COST ANALYSIS"; rule ] ++
              map (fun '(row, share) =>
                     Fmt.ljust 12 (v_Vendor row) +:+ " | Cost: $" +:+
                     Fmt.rjust 10 (format_fixed true 2 (Fin (v_TotalCost row))) +:+
                     " | Share: " +:+
                     Fmt.rjust 5 (format_fixed false 1 (Fin share)) +:+ "%")
                  (combine sample_vendors shares))) /\
    length shares = length sample_vendors /\
    List.Forall (fun share => 0 <= share /\ share <= 100)%Q shares.
Proof.
  apply (@vendor_share_between_0_and_100 exact_floats loaded sample_vendors).
  - apply exact_floats_exact.
  - vm_compute. reflexivity.
  - unfold sample_vendors. repeat constructor; discriminate.
  - reflexivity.
Defined.

(** X10. A Vendor Costs table whose column sum, as the library computes it,
    is zero does not make the vendor report fail.  With a division that gives
    nan for 0/0 and a signed infinity for x/0, as numpy's does, and a format
    that writes them nan, inf and -inf, the report completes and prints
    one line per vendor whose share reads nan for a zero cost, inf for a
    positive cost and -inf for a negative cost. *)
Theorem vendor_zero_total_prints_nan `{F : Floats} (s : St) (vendors : list VendorRow) :
  numpy_zero_division F ->
  data s !! "Vendor Costs" = Some (Vendors_sheet vendors) ->
  (column_sum (map v_TotalCost vendors) == 0)%Q ->
  analyze_vendor_efficiency s =
    (inr (Vendors_sheet vendors),
     out s ([ nl +:+ rule; "VENDOR COST ANALYSIS"; rule ] ++
            map (fun row =>
                   Fmt.ljust 12 (v_Vendor row) +:+ " | Cost: $" +:+
                   Fmt.rjust 10 (format_fixed true 2 (Fin (v_TotalCost row))) +:+
                   " | Share: " +:+
                   (if Qeq_bool (v_TotalCost row) 0 then "  nan"
                    else if Qle_bool 0 (v_TotalCost row) then "  inf" else " -inf")
                   +:+ "%")
                vendors)).
Proof.
  intros (Hdiv & Hmul & Hnan & Hinf) Hs Hz.
  rewrite (analyze_vendor_efficiency_ok s vendors Hs). do 2 f_equal.
  unfold vendor_heading. f_equal.
  apply map_ext. intros row. unfold vendor_line, vendor_pct, total_cost_sum.
  rewrite (Hdiv _ _ Hz).
  destruct (Qeq_bool (v_TotalCost row) 0) eqn:B.
  - rewrite (proj1 (Hmul false)), Hnan. reflexivity.
  - rewrite (proj2 (Hmul _)). rewrite Hinf.
    assert (NZ : ~ (v_TotalCost row == 0)%Q).
    { intros E. apply Qeq_bool_iff in E. congruence. }
    destruct (Qle_bool 0 (v_TotalCost row)) eqn:L.
    + apply Qle_bool_iff in L.
      assert (Sg : (Qnum (v_TotalCost row) <? 0)%Z = false).
      { apply Z.ltb_ge. unfold Qle in L. simpl in L. lia. }
      rewrite Sg. reflexivity.
    + assert (Sg : (Qnum (v_TotalCost row) <? 0)%Z = true).
      { apply Z.ltb_lt. destruct (Z_lt_le_dec (Qnum (v_TotalCost row)) 0) as [l|l];
          [exact l|]. exfalso.
        assert (L' : Qle_bool 0 (v_TotalCost row) = true)
          by (apply Qle_bool_iff; unfold Qle; simpl; lia).
        congruence. }
      rewrite Sg. reflexivity.
Qed.

Lemma vendor_zero_total_prints_nan_witness :
  analyze_vendor_efficiency zero_total_state =
    (inr (Vendors_sheet zero_total_vendors),
     out zero_total_state
       [ nl +:+ rule; "VENDOR COST ANALYSIS"; rule;
         "Vendor 1     | Cost: $     50.00 | Share:   inf%";
         "Credit       | Cost: $    -50.00 | Share:  -inf%";
         "Idle         | Cost: $      0.00 | Share:   nan%" ]).
Proof.
  rewrite (@vendor_zero_total_prints_nan exact_floats zero_total_state zero_total_vendors).
  - vm_compute. reflexivity.
  - apply exact_floats_numpy_division.
  - reflexivity.
  - reflexivity.
Defined.

(** ** The renderer reads the tables and the directories only *)

Lemma create_visualizations_split `{Pandas} `{Matplotlib} output_dir :
  create_visualizations output_dir =
  (mkdir_exist_ok (Path output_dir) ;;; render_charts output_dir).
Proof. reflexivity. Qed.

Lemma apply_writes_app ups ups' g :
  apply_writes (ups ++ ups') g = apply_writes ups' (apply_writes ups g).
Proof. unfold apply_writes. apply fold_left_app. Qed.

Lemma apply_writes_lookup ups g k :
  apply_writes ups g !! k =
  match last_write ups k with Some f => Some f | None => g !! k end.
Proof.
  revert g. induction ups as [|[p f] ups IH]; intros g; simpl; [reflexivity|].
  rewrite IH. destruct (last_write ups k); [reflexivity|].
  destruct (String.eqb_spec p k) as [->|N].
  - apply lookup_insert_eq.
  - apply lookup_insert_ne, N.
Qed.

Lemma apply_writes_twice ups g :
  apply_writes ups (apply_writes ups g) = apply_writes ups g.
Proof.
  apply map_eq. intros k. rewrite !apply_writes_lookup.
  destruct (last_write ups k); reflexivity.
Qed.

Lemma blind_of_report {A} (m : M A) : report_only m -> disk_blind m.
Proof.
  intros Hm fp d ds. destruct (Hm d) as (r & lines & E).
  exists r, lines, []. intros so g. apply E.
Qed.

Lemma blind_bind {A B} (m : M A) (f : A -> M B) :
  disk_blind m -> (forall a, disk_blind (f a)) -> disk_blind (bind m f).
Proof.
  intros Hm Hf fp d ds. destruct (Hm fp d ds) as ([e|a] & lines & ups & E).
  - exists (inl e), lines, ups. intros so g. unfold bind. rewrite E. reflexivity.
  - destruct (Hf a fp d ds) as (r & lines' & ups' & E').
    exists r, (lines ++ lines')%list, (ups ++ ups')%list. intros so g.
    unfold bind. rewrite E, E', app_assoc, apply_writes_app. reflexivity.
Qed.

Lemma blind_write_file p f : disk_blind (write_file p f).
Proof.
  intros fp d ds.
  destruct (String.eqb p "." || String.eqb p "/" || bool_decide (p ∈ ds)) eqn:D1.
  - exists (inl (IsADirectoryError p)), [], []. intros so g.
    unfold write_file, is_dir. cbn [dirs]. rewrite D1, app_nil_r. reflexivity.
  - destruct (String.eqb (dirname p) "." || String.eqb (dirname p) "/"
              || bool_decide (dirname p ∈ ds)) eqn:D2.
    + exists (inr tt), [], [(p, f)]. intros so g.
      unfold write_file, is_dir. cbn [dirs]. rewrite D1, D2, app_nil_r. reflexivity.
    + exists (inl (FileNotFoundError p)), [], []. intros so g.
      unfold write_file, is_dir. cbn [dirs]. rewrite D1, D2, app_nil_r. reflexivity.
Qed.

Lemma blind_savefig `{Matplotlib} fig p : disk_blind (savefig fig p).
Proof.
  unfold savefig. destruct (render fig).
  - apply blind_write_file.
  - apply blind_of_report, report_raise.
Qed.

Lemma report_country_rows t : report_only (country_rows t).
Proof. destruct t; first [apply report_ret | apply report_raise]. Qed.

Lemma report_carrier_rows t : report_only (carrier_rows t).
Proof. destruct t; first [apply report_ret | apply report_raise]. Qed.

#[local] Hint Resolve report_country_rows report_carrier_rows : report.

Ltac blind :=
  repeat first
    [ apply blind_bind; [|intros ?]
    | apply blind_savefig
    | solve [apply blind_of_report; auto with report]
    | progress cbv zeta ].

Lemma blind_render_charts `{Pandas} `{Matplotlib} output_dir :
  disk_blind (render_charts output_dir).
Proof. unfold render_charts. blind. Qed.

Lemma is_dir_dirs s s' p : dirs s = dirs s' -> is_dir s p = is_dir s' p.
Proof. intros E. unfold is_dir. rewrite E. reflexivity. Qed.

(** X11. Running the renderer again after a run that completed, on the same
    output directory, completes again and changes nothing on disk: the same
    four files are rewritten with the same content, no directory is added, and
    the only trace is the confirmation line printed once more. *)
Theorem visualizations_rerun_changes_nothing `{Pandas} `{Matplotlib}
    (output_dir : string) (s s1 : St) :
  create_visualizations output_dir s = (inr tt, s1) ->
  exists s2,
    create_visualizations output_dir s1 = (inr tt, s2) /\
    files s2 = files s1 /\ dirs s2 = dirs s1 /\ data s2 = data s1 /\
    stdout s1 = (stdout s ++ [saved_line output_dir])%list /\
    stdout s2 = (stdout s1 ++ [saved_line output_dir])%list.
Proof.
  intros E.
  destruct (create_visualizations_inv _ _ _ E) as (s0' & i1 & i2 & i3 & i4 & Emk' & Hs1).
  rewrite create_visualizations_split in E |- *.
  apply bind_inv in E. destruct E as ([] & s0 & Emk & E).
  rewrite Emk in Emk'. injection Emk' as <-.
  destruct (mkdir_inv _ _ _ Emk) as [Hdir Hs0].
  destruct s0 as [fp d so ds g].
  destruct (blind_render_charts output_dir fp d ds) as (r & lines & ups & B).
  rewrite B in E. injection E as -> <-.
  assert (Hlines : lines = [saved_line output_dir]).
  { apply (f_equal stdout) in Hs1. cbn [stdout out set_files] in Hs1.
    apply app_inv_head in Hs1. exact Hs1. }
  assert (Hso : so = stdout s)
    by (destruct Hs0 as [E0|E0]; apply (f_equal stdout) in E0; exact E0).
  eexists. split.
  - erewrite bind_ok.
    + apply B.
    + unfold mkdir_exist_ok.
      rewrite (is_dir_dirs _ (mkSt fp d so ds g)) by reflexivity.
      rewrite Hdir. reflexivity.
  - cbn [files dirs data stdout]. rewrite apply_writes_twice, Hlines, Hso.
    repeat split.
Qed.

Lemma visualizations_rerun_changes_nothing_witness :
  let s1 := snd (@create_visualizations insertion_pandas ok_matplotlib
                   "visualizations" empty_disk) in
  exists s2,
    @create_visualizations insertion_pandas ok_matplotlib "visualizations" s1
      = (inr tt, s2) /\
    files s2 = files s1 /\ dirs s2 = dirs s1 /\ data s2 = data s1 /\
    stdout s1 = (stdout empty_disk ++ [saved_line "visualizations"])%list /\
    stdout s2 = (stdout s1 ++ [saved_line "visualizations"])%list.
Proof.
  intros s1.
  apply (@visualizations_rerun_changes_nothing insertion_pandas ok_matplotlib
           "visualizations" empty_disk s1).
  vm_compute. reflexivity.
Defined.

(** ** When the renderer completes *)

Lemma mkdir_ok p s :
  is_dir s p = true \/ (files s !! p = None /\ is_dir s (dirname p) = true) ->
  exists s0, mkdir_exist_ok p s = (inr tt, s0) /\
             (s0 = s \/ s0 = set_dirs s ({[p]} ∪ dirs s)).
Proof.
  intros Hc. unfold mkdir_exist_ok. destruct (is_dir s p) eqn:D.
  - exists s. auto.
  - destruct Hc as [Hc|[Hf Hp]]; [discriminate|].
    rewrite Hf, Hp. eexists. split; [reflexivity | right; reflexivity].
Qed.

Lemma savefig_ok `{Matplotlib} fig p img x :
  render fig = Some img ->
  is_dir x p = false -> is_dir x (dirname p) = true ->
  savefig fig p x = (inr tt, set_files x (<[p := Png img]> (files x))).
Proof.
  intros R D1 D2. unfold savefig. rewrite R. unfold write_file.
  rewrite D1, D2. reflexivity.
Qed.

Lemma is_dir_after_mkdir s s0 dir p :
  (s0 = s \/ s0 = set_dirs s ({[Path dir]} ∪ dirs s)) ->
  In p (chart_paths dir) -> is_dir s p = false -> is_dir s0 p = false.
Proof.
  intros [->| ->] Hin Hp; [exact Hp|].
  unfold is_dir in *. cbn [dirs set_dirs].
  apply orb_false_iff in Hp. destruct Hp as [Hp1 Hp2]. rewrite Hp1. simpl.
  apply bool_decide_eq_false in Hp2. apply bool_decide_eq_false.
  intros Hm. apply elem_of_union in Hm. destruct Hm as [Hm|Hm]; [|contradiction].
  apply elem_of_singleton in Hm. exact (chart_path_not_Path _ _ Hin Hm).
Qed.

Ltac chart_in := unfold chart_paths, chart_names; simpl; tauto.

Lemma create_visualizations_ok `{Pandas} `{Matplotlib}
    (output_dir : string) (s : St) (summary : list SummaryRow)
    (r3 r5 : SummaryRow) (t3 t5 : list SummaryRow)
    (clients : list ClientRow) (countries : list CountryRow)
    (vendors : list VendorRow) (carriers : list CarrierRow) :
  (is_dir s (Path output_dir) = true \/
   (files s !! Path output_dir = None /\
    is_dir s (dirname (Path output_dir)) = true)) ->
  (forall p, In p (chart_paths output_dir) -> is_dir s p = false) ->
  (forall fig, render fig <> None) ->
  data s !! "Summary" = Some (Summary_sheet summary) ->
  matching "Gross Margin % (Current)" summary = r3 :: t3 ->
  matching "Gross Margin % (After Increase)" summary = r5 :: t5 ->
  data s !! "Client Breakdown" = Some (Clients_sheet clients) ->
  data s !! "Country Breakdown" = Some (Countries_sheet countries) ->
  data s !! "Vendor Costs" = Some (Vendors_sheet vendors) ->
  data s !! "Carrier Breakdown" = Some (Carriers_sheet carriers) ->
  exists s',
    create_visualizations output_dir s = (inr tt, s') /\
    files s' !! (output_dir +:+ "/01_revenue_margin_analysis.png") =
      Png <$> render (Fig_revenue_margin [Value r3 * 100; Value r5 * 100]%Q
                        (head 10 (sort_values_desc c_Revenue clients))) /\
    files s' !! (output_dir +:+ "/02_country_performance.png") =
      Png <$> render (Fig_country (sort_values_desc k_Revenue countries)) /\
    files s' !! (output_dir +:+ "/03_vendor_costs.png") =
      Png <$> render (Fig_vendor (sort_values_desc v_TotalCost vendors)) /\
    files s' !! (output_dir +:+ "/04_carrier_analysis.png") =
      Png <$> render (Fig_carrier (sort_values_desc r_Revenue carriers)) /\
    stdout s' = (stdout s ++ [saved_line output_dir])%list.
Proof.
  intros Hmk Hnd Hrender HS H3 H5 HC HK HV HR.
  destruct (mkdir_ok _ _ Hmk) as (s0 & Emk & Hs0).
  destruct (mkdir_inv _ _ _ Emk) as [Hdir0 _].
  assert (Hd0 : data s0 = data s) by (destruct Hs0 as [->| ->]; reflexivity).
  assert (Hso : stdout s0 = stdout s) by (destruct Hs0 as [->| ->]; reflexivity).
  assert (Hnd0 : forall p, In p (chart_paths output_dir) -> is_dir s0 p = false).
  { intros p Hin. eapply is_dir_after_mkdir; eauto. }
  assert (Hdn : forall p, In p (chart_paths output_dir) -> is_dir s0 (dirname p) = true).
  { intros p Hin. eapply chart_path_dirname; eassumption. }
  rewrite <- Hd0 in HS, HC, HK, HV, HR.
  destruct (render (Fig_revenue_margin [Value r3 * 100; Value r5 * 100]%Q
                      (head 10 (sort_values_desc c_Revenue clients)))) as [i1|] eqn:R1;
    [|exfalso; exact (Hrender _ R1)].
  destruct (render (Fig_country (sort_values_desc k_Revenue countries))) as [i2|] eqn:R2;
    [|exfalso; exact (Hrender _ R2)].
  destruct (render (Fig_vendor (sort_values_desc v_TotalCost vendors))) as [i3|] eqn:R3;
    [|exfalso; exact (Hrender _ R3)].
  destruct (render (Fig_carrier (sort_values_desc r_Revenue carriers))) as [i4|] eqn:R4;
    [|exfalso; exact (Hrender _ R4)].
  eexists. split.
  - unfold create_visualizations.
    erewrite bind_ok by exact Emk.
    erewrite bind_ok by (apply get_sheet_some; exact HS).
    erewrite bind_ok by reflexivity.
    erewrite bind_ok by (eapply lookup_metric_first; exact H3).
    erewrite bind_ok by (eapply lookup_metric_first; exact H5).
    cbv zeta.
    erewrite bind_ok by (apply get_sheet_some; exact HC).
    erewrite bind_ok by reflexivity.
    cbv zeta.
    erewrite bind_ok
      by (apply (savefig_ok _ _ _ _ R1); [apply Hnd0 | apply Hdn]; chart_in).
    erewrite bind_ok by (apply get_sheet_some; exact HK).
    erewrite bind_ok by reflexivity.
    cbv zeta.
    erewrite bind_ok
      by (apply (savefig_ok _ _ _ _ R2); [apply Hnd0 | apply Hdn]; chart_in).
    erewrite bind_ok by (apply get_sheet_some; exact HV).
    erewrite bind_ok by reflexivity.
    cbv zeta.
    erewrite bind_ok
      by (apply (savefig_ok _ _ _ _ R3); [apply Hnd0 | apply Hdn]; chart_in).
    erewrite bind_ok by (apply get_sheet_some; exact HR).
    erewrite bind_ok by reflexivity.
    cbv zeta.
    erewrite bind_ok
      by (apply (savefig_ok _ _ _ _ R4); [apply Hnd0 | apply Hdn]; chart_in).
    apply print_out.
  - cbn [files stdout out set_files]. rewrite Hso.
    repeat split.
    + rewrite !lookup_insert_ne
        by (intros E; apply append_inj_l in E; discriminate).
      apply lookup_insert_eq.
    + rewrite !lookup_insert_ne
        by (intros E; apply append_inj_l in E; discriminate).
      apply lookup_insert_eq.
    + rewrite !lookup_insert_ne
        by (intros E; apply append_inj_l in E; discriminate).
      apply lookup_insert_eq.
    + apply lookup_insert_eq.
Qed.



(** ** Files the renderer can touch *)

Lemma touches_of_reads paths {A} (m : M A) : reads_only m -> touches_only paths m.
Proof.
  intros Hm s k _. destruct (m s) as [r s'] eqn:E.
  rewrite (Hm _ _ _ E). reflexivity.
Qed.

Lemma touches_bind paths {A B} (m : M A) (f : A -> M B) :
  touches_only paths m -> (forall a, touches_only paths (f a)) ->
  touches_only paths (bind m f).
Proof.
  intros Hm Hf s k Hk. unfold bind. specialize (Hm s k Hk).
  destruct (m s) as [[e|a] s1]; simpl in *; [exact Hm|].
  rewrite (Hf a s1 k Hk). exact Hm.
Qed.

Lemma touches_print paths text : touches_only paths (print text).
Proof. intros s k _. reflexivity. Qed.

Lemma touches_mkdir paths p : touches_only paths (mkdir_exist_ok p).
Proof.
  intros s k _. unfold mkdir_exist_ok.
  destruct (is_dir s p); [reflexivity|].
  destruct (files s !! p); [reflexivity|].
  destruct (is_dir s (dirname p)); reflexivity.
Qed.

Lemma touches_savefig `{Matplotlib} paths fig p :
  In p paths -> touches_only paths (savefig fig p).
Proof.
  intros Hp s k Hk. unfold savefig. destruct (render fig); [|reflexivity].
  unfold write_file. destruct (is_dir s p); [reflexivity|].
  destruct (is_dir s (dirname p)); [|reflexivity].
  simpl. apply lookup_insert_ne. intros ->. exact (Hk Hp).
Qed.

Ltac touches :=
  repeat first
    [ apply touches_bind; [|intros ?]
    | apply touches_savefig; chart_in
    | apply touches_mkdir
    | apply touches_print
    | apply touches_of_reads;
      first [ apply reads_get_sheet | apply reads_lookup_metric
            | apply reads_summary_rows | apply reads_client_rows
            | apply reads_vendor_rows | apply reads_country_rows
            | apply reads_carrier_rows ]
    | progress cbv zeta ].

Lemma create_visualizations_touches `{Pandas} `{Matplotlib} output_dir :
  touches_only (chart_paths output_dir) (create_visualizations output_dir).
Proof. unfold create_visualizations. touches. Qed.

(** X13. Whether it completes or fails, and at whatever step it fails, the
    renderer leaves as it was every file that is no spelling of one of its
    four chart paths, and adds at most the output directory to the
    directories. *)
Theorem visualizations_touch_only_charts `{Pandas} `{Matplotlib}
    (output_dir : string) (s : St) :
  let s' := snd (create_visualizations output_dir s) in
  (forall k,
     (forall p, In p [ output_dir +:+ "/01_revenue_margin_analysis.png";
                       output_dir +:+ "/02_country_performance.png";
                       output_dir +:+ "/03_vendor_costs.png";
                       output_dir +:+ "/04_carrier_analysis.png" ] ->
                same_file k p = false) ->
     files s' !! k = files s !! k) /\
  (dirs s' = dirs s \/ dirs s' = {[Path output_dir]} ∪ dirs s).
Proof.
  intros s'. split.
  - intros k Hk. apply (not_a_chart_path output_dir) in Hk.
    exact (create_visualizations_touches output_dir s k Hk).
  - subst s'. rewrite create_visualizations_split. unfold bind.
    destruct (mkdir_exist_ok (Path output_dir) s) as [[e|[]] s0] eqn:Emk.
    + left. unfold mkdir_exist_ok in Emk.
      destruct (is_dir s (Path output_dir)); [discriminate|].
      destruct (files s !! Path output_dir);
        [injection Emk as _ <-; reflexivity|].
      destruct (is_dir s (dirname (Path output_dir)));
        [discriminate | injection Emk as _ <-; reflexivity].
    + destruct (mkdir_inv _ _ _ Emk) as [_ Hs0].
      destruct s0 as [fp d so ds g].
      destruct (blind_render_charts output_dir fp d ds) as (r & lines & ups & B).
      rewrite B. cbn [snd dirs].
      destruct Hs0 as [E|E]; apply (f_equal dirs) in E; cbn [dirs set_dirs] in E;
        [left | right]; exact E.
Qed.



(** ** Complete runs *)

Lemma run_full_analysis_ok `{P : Pandas} `{Mp : Matplotlib} `{F : Floats}
    (s : St) (summary : list SummaryRow)
    (r1 r2 r3 r4 r5 : SummaryRow) (t1 t2 t3 t4 t5 : list SummaryRow)
    (clients : list ClientRow) (vendors : list VendorRow)
    (low_clients : list LowClientRow) (low_countries countries : list CountryRow)
    (carriers : list CarrierRow) :
  (is_dir s "visualizations" = true \/ files s !! "visualizations" = None) ->
  (forall p, In p (chart_paths "visualizations") -> is_dir s p = false) ->
  (forall fig, render fig <> None) ->
  data s !! "Summary" = Some (Summary_sheet summary) ->
  matching "Total Revenue" summary = r1 :: t1 ->
  matching "Total Cost" summary = r2 :: t2 ->
  matching "Gross Margin % (Current)" summary = r3 :: t3 ->
  matching "Total Revenue (After Increase)" summary = r4 :: t4 ->
  matching "Gross Margin % (After Increase)" summary = r5 :: t5 ->
  data s !! "Client Breakdown" = Some (Clients_sheet clients) ->
  data s !! "Vendor Costs" = Some (Vendors_sheet vendors) ->
  data s !! "Low Margin Clients" = Some (LowClients_sheet low_clients) ->
  data s !! "Low Margin Countries" = Some (Countries_sheet low_countries) ->
  data s !! "Country Breakdown" = Some (Countries_sheet countries) ->
  data s !! "Carrier Breakdown" = Some (Carriers_sheet carriers) ->
  exists s',
    run_full_analysis s = (inr tt, s') /\
    stdout s' =
      (stdout s ++ full_report (Value r1) (Value r2) (Value r3) (Value r4) (Value r5)
                     clients vendors low_clients low_countries)%list /\
    (forall p, In p (chart_paths "visualizations") -> is_Some (files s' !! p)) /\
    (forall k, (forall p, In p (chart_paths "visualizations") -> same_file k p = false) ->
       files s' !! k = files s !! k) /\
    data s' = data s /\ filepath s' = filepath s.
Proof.
  intros Hmk Hnd Hrender HS H1 H2 H3 H4 H5 HC HV HLC HLK HK HR.
  pose (x1 := out s banner).
  pose proof (generate_summary_report_ok x1 summary _ _ _ _ _ _ _ _ _ _ HS H1 H2 H3 H4 H5) as E1.
  match type of E1 with _ = (_, ?x) => set (x2 := x) in E1 end.
  pose proof (analyze_top_clients_ok x2 clients 10 HC) as E2.
  match type of E2 with _ = (_, ?x) => set (x3 := x) in E2 end.
  pose proof (analyze_vendor_efficiency_ok x3 vendors HV) as E3.
  match type of E3 with _ = (_, ?x) => set (x4 := x) in E3 end.
  pose proof (identify_optimization_opportunities_ok x4 low_clients low_countries HLC HLK) as E4.
  match type of E4 with _ = (_, ?x) => set (x5 := x) in E4 end.
  destruct (create_visualizations_ok "visualizations" x5 summary r3 r5 t3 t5
              clients countries vendors carriers)
    as (x6 & E5 & F1 & F2 & F3 & F4 & O5); try assumption.
  { destruct Hmk as [Hmk|Hmk]; [left; exact Hmk | right; split; [exact Hmk | reflexivity]]. }
  pose proof (keeps_create_visualizations "visualizations" x5) as [K5 K5'].
  rewrite E5 in K5, K5'. cbn [snd] in K5, K5'.
  pose proof (create_visualizations_touches "visualizations" x5) as T5.
  rewrite E5 in T5. cbn [snd] in T5.
  exists (out x6 recommendations_block). split; [|split; [|split; [|split; [|split]]]].
  - unfold run_full_analysis.
    erewrite bind_ok by apply for_each_print.
    erewrite bind_ok by exact E1.
    erewrite bind_ok by exact E2.
    erewrite bind_ok by exact E3.
    erewrite bind_ok by exact E4.
    erewrite bind_ok by exact E5.
    apply for_each_print.
  - cbn [stdout out]. rewrite O5. unfold x5, x4, x3, x2, x1, full_report.
    cbn [stdout out]. rewrite banner_expected, recommendations_expected.
    rewrite <- !app_assoc. reflexivity.
  - intros p Hp. cbn [files out].
    unfold chart_paths, chart_names in Hp. simpl in Hp.
    destruct Hp as [<-|[<-|[<-|[<-|[]]]]];
      [rewrite F1 | rewrite F2 | rewrite F3 | rewrite F4];
      match goal with |- is_Some (Png <$> render ?f) =>
        destruct (render f) eqn:R; [eexists; reflexivity | exfalso; exact (Hrender _ R)]
      end.
  - intros k Hk. apply not_a_chart_path in Hk.
    cbn [files out]. rewrite (T5 k Hk). reflexivity.
  - cbn [data out]. rewrite K5. reflexivity.
  - cbn [filepath out]. rewrite K5'. reflexivity.
Qed.





(** ** Runs that stop before the renderer *)

Lemma report_frame {A} (m : M A) s r s' :
  report_only m -> m s = (r, s') ->
  data s' = data s /\ dirs s' = dirs s /\ files s' = files s.
Proof.
  intros Hm E. destruct s as [fp d so ds g].
  destruct (Hm d) as (r0 & lines & B). rewrite B in E.
  injection E as _ <-. repeat split.
Qed.

Lemma summary_fails_without_table `{Floats} s :
  data s !! "Summary" = None -> exists e x, generate_summary_report s = (inl e, x).
Proof.
  intros Hnone. unfold generate_summary_report. do 3 step_print.
  erewrite bind_err by (apply get_sheet_none; exact Hnone). eauto.
Qed.

Lemma top_clients_fails_without_table `{Pandas} `{Floats} n s :
  data s !! "Client Breakdown" = None -> exists e x, analyze_top_clients n s = (inl e, x).
Proof.
  intros Hnone. unfold analyze_top_clients.
  erewrite bind_err by (apply get_sheet_none; exact Hnone). eauto.
Qed.

Lemma vendor_fails_without_table `{Floats} s :
  data s !! "Vendor Costs" = None -> exists e x, analyze_vendor_efficiency s = (inl e, x).
Proof.
  intros Hnone. unfold analyze_vendor_efficiency.
  erewrite bind_err by (apply get_sheet_none; exact Hnone). eauto.
Qed.

Lemma optimization_fails_without_table `{Floats} s :
  data s !! "Low Margin Clients" = None \/ data s !! "Low Margin Countries" = None ->
  exists e x, identify_optimization_opportunities s = (inl e, x).
Proof.
  intros Hnone. unfold identify_optimization_opportunities.
  destruct (data s !! "Low Margin Clients") as [t|] eqn:Ec.
  - destruct Hnone as [Hn|Hn]; [discriminate|].
    erewrite bind_ok by (apply get_sheet_some; exact Ec).
    erewrite bind_err by (apply get_sheet_none; exact Hn). eauto.
  - erewrite bind_err by (apply get_sheet_none; exact Ec). eauto.
Qed.

(** X17. When one of the five tables the reporters read (Summary, Client
    Breakdown, Vendor Costs, Low Margin Clients, Low Margin Countries) is
    missing, the full analysis raises before the renderer starts: no chart is
    written, no directory is made, and the tables are as they were. *)
Theorem full_analysis_stops_before_renderer `{Pandas} `{Matplotlib} `{Floats}
    (s : St) (name : string) :
  In name reporter_tables ->
  data s !! name = None ->
  exists e s',
    run_full_analysis s = (inl e, s') /\
    files s' = files s /\ dirs s' = dirs s /\ data s' = data s.
Proof.
  intros Hin Hnone.
  pose proof report_generate_summary_report as R1.
  pose proof (report_analyze_top_clients 10) as R2.
  pose proof report_analyze_vendor_efficiency as R3.
  pose proof report_identify_optimization_opportunities as R4.
  unfold run_full_analysis.
  erewrite bind_ok by apply for_each_print.
  set (x1 := out s banner).
  destruct (generate_summary_report x1) as [[e|r1] x2] eqn:E1.
  { destruct (report_frame _ _ _ _ R1 E1) as (Fd & Fs & Ff).
    erewrite bind_err by exact E1. exists e, x2.
    split; [reflexivity|]. rewrite Ff, Fs, Fd. repeat split. }
  destruct (report_frame _ _ _ _ R1 E1) as (Fd1 & Fs1 & Ff1).
  erewrite bind_ok by exact E1.
  destruct (analyze_top_clients 10 x2) as [[e|r2] x3] eqn:E2.
  { destruct (report_frame _ _ _ _ R2 E2) as (Fd & Fs & Ff).
    erewrite bind_err by exact E2. exists e, x3.
    split; [reflexivity|]. rewrite Ff, Fs, Fd, Ff1, Fs1, Fd1. repeat split. }
  destruct (report_frame _ _ _ _ R2 E2) as (Fd2 & Fs2 & Ff2).
  erewrite bind_ok by exact E2.
  destruct (analyze_vendor_efficiency x3) as [[e|r3] x4] eqn:E3.
  { destruct (report_frame _ _ _ _ R3 E3) as (Fd & Fs & Ff).
    erewrite bind_err by exact E3. exists e, x4.
    split; [reflexivity|]. rewrite Ff, Fs, Fd, Ff2, Fs2, Fd2, Ff1, Fs1, Fd1. repeat split. }
  destruct (report_frame _ _ _ _ R3 E3) as (Fd3 & Fs3 & Ff3).
  erewrite bind_ok by exact E3.
  destruct (identify_optimization_opportunities x4) as [[e|r4] x5] eqn:E4.
  { destruct (report_frame _ _ _ _ R4 E4) as (Fd & Fs & Ff).
    erewrite bind_err by exact E4. exists e, x5.
    split; [reflexivity|].
    rewrite Ff, Fs, Fd, Ff3, Fs3, Fd3, Ff2, Fs2, Fd2, Ff1, Fs1, Fd1. repeat split. }
  exfalso.
  assert (N1 : data x1 !! name = None) by exact Hnone.
  assert (N2 : data x2 !! name = None) by (rewrite Fd1; exact N1).
  assert (N3 : data x3 !! name = None) by (rewrite Fd2; exact N2).
  assert (N4 : data x4 !! name = None) by (rewrite Fd3; exact N3).
  unfold reporter_tables in Hin. simpl in Hin.
  destruct Hin as [<-|[<-|[<-|[<-|[<-|[]]]]]].
  - destruct (summary_fails_without_table x1 N1) as (e & x & F). congruence.
  - destruct (top_clients_fails_without_table 10 x2 N2) as (e & x & F). congruence.
  - destruct (vendor_fails_without_table x3 N3) as (e & x & F). congruence.
  - destruct (optimization_fails_without_table x4 (or_introl N4)) as (e & x & F). congruence.
  - destruct (optimization_fails_without_table x4 (or_intror N4)) as (e & x & F). congruence.
Qed.

Lemma full_analysis_stops_before_renderer_witness :
  let s := set_data empty_disk (delete "Low Margin Countries" (data empty_disk)) in
  exists e s',
    @run_full_analysis insertion_pandas ok_matplotlib exact_floats s = (inl e, s') /\
    files s' = files s /\ dirs s' = dirs s /\ data s' = data s.
Proof.
  intros s.
  apply (@full_analysis_stops_before_renderer insertion_pandas ok_matplotlib exact_floats
           s "Low Margin Countries").
  - unfold reporter_tables. simpl. tauto.
  - vm_compute. reflexivity.
Defined.
